(** * IntelliPattern: the pattern analysis engine, the insight narrative
      generator and the [PerformanceRecord] model, embedded from
      [app.py], [app_old.py] and [models.py].

    Conventions of the embedding.
    - SQLite [INTEGER] and Python [int] are [Z]; SQLite [REAL] and Python
      [float] are exact rationals [Q] (no rounding error, no infinities, no
      NaN).  The two readings agree on every value a double represents
      exactly, as in the examples at the end.
    - SQLite [TEXT] and Python [str] are [string] (UTF-8 bytes).
    - Python exceptions are values of [exn]; a computation that may raise has
      a [result] and, when it also touches the data store or the
      text-generation service, lives in the monad [M].
    - SQL leaves the order of rows that tie on the [ORDER BY] key, and of
      groups without [ORDER BY], unspecified.  The embedding fixes it: groups
      come in order of first occurrence and sorting is stable. *)

From Stdlib Require Import List String Ascii ZArith QArith Qround Qabs Bool Lia.
From Stdlib Require Import Sorting.Sorted Sorting.Permutation DecimalString.
From Stdlib Require Import OrderedTypeEx Lqa.
Import ListNotations.

Local Open Scope string_scope.
Local Open Scope Z_scope.

(** ** Python values *)

Module Py.

(** The exception classes the code can meet; all derive from [Exception]. *)
Inductive exn : Type :=
  | DataStoreError (msg : string)     (* sqlite3.Error / sqlalchemy.exc.* *)
  | ServiceError (msg : string)       (* raised by generate_content or .text *)
  | ZeroDivisionError (msg : string)
  | AttributeError (msg : string)
  | NameError (msg : string).

(** [str(e)] *)
Definition str (e : exn) : string :=
  match e with
  | DataStoreError m | ServiceError m | ZeroDivisionError m
  | AttributeError m | NameError m => m
  end.

Inductive result (A : Type) : Type :=
  | Ok (a : A)
  | Raise (e : exn).
Arguments Ok {A} a.
Arguments Raise {A} e.

(** [str(n)] and [format(n)] of an int. *)
Definition str_int (n : Z) : string := NilZero.string_of_int (Z.to_int n).

(** [len(l)] as an int. *)
Definition len {A : Type} (l : list A) : Z := Z.of_nat (List.length l).

(** [sum(...)] over floats. *)
Definition sum (l : list Q) : Q := fold_right Qplus 0%Q l.

(** [x / y] on floats: raises on a zero divisor. *)
Definition truediv (x y : Q) : result Q :=
  if Qeq_bool y 0 then Raise (ZeroDivisionError "float division by zero")
  else Ok (x / y)%Q.

Definition Qlt_bool (x y : Q) : bool := negb (Qle_bool y x).

(** Rounding to the nearest integer, ties to even. *)
Definition round_half_even (q : Q) : Z :=
  let f := Qfloor q in
  let r := (q - inject_Z f)%Q in
  if Qlt_bool r (1 # 2) then f
  else if Qlt_bool (1 # 2) r then f + 1
  else if Z.even f then f else f + 1.

(** [round(x, 1)] *)
Definition round1 (x : Q) : Q :=
  (inject_Z (round_half_even (x * 10)) / 10)%Q.

Fixpoint pow10 (d : nat) : Z :=
  match d with O => 1 | S d' => 10 * pow10 d' end.

Fixpoint zeros (n : nat) : string :=
  match n with O => "" | S n' => String "0" (zeros n') end.

(** First [n] characters and the rest. *)
Definition take (n : nat) (s : string) : string := substring 0 n s.
Definition drop (n : nat) (s : string) : string :=
  substring n (String.length s - n) s.

(** [f'{q:.{d}f}']: fixed point with [d] fractional digits, ties to even,
  the sign of [q] kept even when every printed digit is zero. *)
Definition format_f (d : nat) (q : Q) : string :=
  let n := round_half_even (Qabs q * inject_Z (pow10 d)) in
  let digits := str_int n in
  let padded := zeros (S d - String.length digits) ++ digits in
  let k := (String.length padded - d)%nat in
  let body := match d with
              | O => padded
              | _ => take k padded ++ "." ++ drop k padded
              end in
  if Qlt_bool q 0 then "-" ++ body else body.

End Py.
Import Py.

(** The error monad of code that does not touch the outside world. *)
Definition bind_result {A B : Type} (r : result A) (k : A -> result B)
  : result B :=
  match r with Ok a => k a | Raise e => Raise e end.

(** ** Records of the raw-SQL variant ([init_db] of [app.py]) *)

Module SessionRow.
Record t : Type := mk {
  id : Z;
  subject : string;
  duration : Z;
  start_time : string;
  end_time : string;
  study_method : string;
  difficulty_level : Z;
  focus_rating : Z;
  notes : option string;
  created_at : string
  }.
End SessionRow.

Module PerformanceRow.
Record t : Type := mk {
  id : Z;
  subject : string;
  assessment_type : string;
  score : Q;
  max_score : Q;
  date : string;
  topics_covered : option string;
  created_at : string
  }.
End PerformanceRow.

Module WellnessRow.
Record t : Type := mk {
  id : Z;
  date : string;
  sleep_hours : Q;
  stress_level : Z;
  mood_rating : Z;
  exercise_minutes : option Z;
  caffeine_intake : option Z;
  notes : option string;
  created_at : string
  }.
End WellnessRow.

Record Database : Type := mkDatabase {
  study_sessions : list SessionRow.t;
  performance_records : list PerformanceRow.t;
  wellness_tracking : list WellnessRow.t
}.

Definition empty_db : Database := mkDatabase [] [] [].

(** ** SQL building blocks *)

Module Sql.
Section Generic.
Context {A K : Type}.

(** [ORDER BY]: stable insertion sort; [before y x] says that [y] sorts
  strictly before [x]. *)
Fixpoint insert_by (before : A -> A -> bool) (x : A) (l : list A) : list A :=
  match l with
  | [] => [x]
  | y :: r => if before y x then y :: insert_by before x r else x :: y :: r
  end.

Definition order_by (before : A -> A -> bool) (l : list A) : list A :=
  fold_right (insert_by before) [] l.

(** [LIMIT n] *)
Definition limit (n : nat) (l : list A) : list A := firstn n l.

(** The distinct values of a list, each at its first occurrence. *)
Fixpoint distinct (eqb : K -> K -> bool) (l : list K) : list K :=
  match l with
  | [] => []
  | k :: r => k :: filter (fun k' => negb (eqb k k')) (distinct eqb r)
  end.

(** [GROUP BY key]: every distinct key with the rows that carry it. *)
Definition group_by (eqb : K -> K -> bool) (key : A -> K) (rows : list A)
  : list (K * list A) :=
  map (fun k => (k, filter (fun r => eqb k (key r)) rows))
      (distinct eqb (map key rows)).
End Generic.

(** The sum [SUM(col)] computes over the integers of a non-empty group. *)
Definition total (xs : list Z) : Z := fold_right Z.add 0 xs.

(** [SUM(col)]: NULL over no rows. *)
Definition SUM (xs : list Z) : option Z :=
  match xs with [] => None | _ => Some (total xs) end.

(** [COUNT(col)] of a column that is never NULL, and [COUNT( * )]. *)
Definition COUNT {A : Type} (xs : list A) : Z := Z.of_nat (List.length xs).

(** The arithmetic mean SQLite computes for a non-empty group. *)
Definition mean (xs : list Z) : Q :=
  (inject_Z (total xs) / inject_Z (COUNT xs))%Q.

(** [AVG(col)]: NULL over no rows. *)
Definition AVG (xs : list Z) : option Q :=
  match xs with [] => None | _ => Some (mean xs) end.
End Sql.

(** ** The outside world: data store, text-generation service, stdout *)

(** The queries [get_ai_insights] and [dashboard] of [app_old.py] build with
    the ORM. *)
Inductive orm_query : Type :=
| StudyData
| PerformanceData
| WellnessData
| TotalSessions
| AvgFocus
| AvgDuration
| SubjectsCount
| RecentSessions
| TotalMinutes.

(** The SQL statements [app.py] sends, and those the ORM sends for
    [app_old.py]. *)
Inductive statement : Type :=
| Orm (q : orm_query)
| SelectStudyData
| SelectPerformanceData
| SelectWellnessData
| SelectStats
| SelectFocusData
| SelectSubjectPerformance
| SelectWellnessStudyCorrelation
| CountStudySessions
| CountPerformanceRecords
| CountWellnessTracking
| SelectRecentSessions
| SumDuration
| AvgFocusRating
| DeleteStudySession.

Inductive db_action : Type :=
| Connect
| Execute (s : statement)
| Commit.

(** The state a request runs against.  [fault a = Some msg] makes the data
    store raise [msg] at action [a]; [service_log] holds the prompts
    submitted to the text-generation service so far, oldest first. *)
Record World (D : Type) : Type := mkWorld {
  tables : D;
  fault : db_action -> option string;
  service_log : list string;
  stdout : list string
}.
Arguments mkWorld {D}.
Arguments tables {D}.
Arguments fault {D}.
Arguments service_log {D}.
Arguments stdout {D}.

Definition no_fault : db_action -> option string := fun _ => None.

(** State and exceptions: what Python does when a call may raise and may
    leave effects behind. *)
Definition M (D A : Type) : Type := World D -> result A * World D.

Definition ret {D A : Type} (a : A) : M D A := fun w => (Ok a, w).

Definition raise {D A : Type} (e : exn) : M D A := fun w => (Raise e, w).

Definition bind {D A B : Type} (m : M D A) (k : A -> M D B) : M D B :=
  fun w => match m w with
           | (Ok a, w') => k a w'
           | (Raise e, w') => (Raise e, w')
           end.

(** [try: m  except Exception as e: handler e] *)
Definition try_except {D A : Type} (m : M D A) (handler : exn -> M D A)
  : M D A :=
  fun w => match m w with
           | (Ok a, w') => (Ok a, w')
           | (Raise e, w') => handler e w'
           end.

Declare Scope monad_scope.
Delimit Scope monad_scope with monad.
Notation "x <- m ;; k" := (bind m (fun x => k))
  (at level 61, m at next level, right associativity) : monad_scope.
Notation "m ;;; k" := (bind m (fun _ => k))
  (at level 61, right associativity) : monad_scope.
Local Open Scope monad_scope.

(** The world after a line went to stdout, and after a prompt went to the
    service. *)
Definition with_line {D : Type} (w : World D) (s : string) : World D :=
  mkWorld (tables w) (fault w) (service_log w) (stdout w ++ [s]).

Definition with_prompt {D : Type} (w : World D) (prompt : string) : World D :=
  mkWorld (tables w) (fault w) (service_log w ++ [prompt]) (stdout w).

(** [print(s)] *)
Definition print {D : Type} (s : string) : M D unit :=
  fun w => (Ok tt, with_line w s).

(** A connection sees the tables and holds the uncommitted changes. *)
Record Conn (D : Type) : Type := mkConn { pending : D }.
Arguments mkConn {D}.
Arguments pending {D}.

Definition db_guard {D A : Type} (a : db_action) (k : M D A) : M D A :=
  fun w => match fault w a with
           | Some msg => (Raise (DataStoreError msg), w)
           | None => k w
           end.

(** [get_db_connection()] *)
Definition get_db_connection {D : Type} : M D (Conn D) :=
  db_guard Connect (fun w => (Ok (mkConn (tables w)), w)).

(** [conn.execute(sql).fetchall()] and [.fetchone()] of a SELECT. *)
Definition execute {D A : Type} (conn : Conn D) (s : statement)
  (rows : D -> A) : M D A :=
  db_guard (Execute s) (ret (rows (pending conn))).

(** [conn.execute(sql, params)] of a statement that changes rows. *)
Definition execute_update {D : Type} (conn : Conn D) (s : statement)
  (change : D -> D) : M D (Conn D) :=
  db_guard (Execute s) (ret (mkConn (change (pending conn)))).

(** [conn.commit()] *)
Definition commit {D : Type} (conn : Conn D) : M D unit :=
  db_guard Commit
    (fun w => (Ok tt, mkWorld (pending conn) (fault w) (service_log w)
                              (stdout w))).

(** [conn.close()] *)
Definition close {D : Type} (conn : Conn D) : M D unit := ret tt.

(** The configured [model]: given the prompts it has already answered and a
    new prompt, [generate_content(prompt).text] is a text or raises. *)
Definition Service : Type := list string -> string -> result string.

Definition generate_content {D : Type} (svc : Service) (prompt : string)
  : M D string :=
  fun w => (svc (service_log w) prompt, with_prompt w prompt).

(** A finding: the dict that [patterns] appends to its list. *)
Record Finding : Type := mkFinding {
  title : string;
  description : string;
  recommendation : string;
  type : string
}.

(** A Python number: [0] and [0.0] are told apart. *)
Inductive number : Type :=
| PyInt (n : Z)
| PyFloat (q : Q).

(** [round(x, 1)] keeps an int an int. *)
Definition round_1 (x : number) : number :=
  match x with
  | PyInt n => PyInt n
  | PyFloat q => PyFloat (round1 q)
  end.

(** [x or 0] on a nullable aggregate: NULL and zero are falsy. *)
Definition int_or_0 (x : option Z) : Z :=
  match x with Some n => n | None => 0 end.

Definition float_or_0 (x : option Q) : number :=
  match x with
  | Some q => if Qeq_bool q 0 then PyInt 0 else PyFloat q
  | None => PyInt 0
  end.

(** What a request handler hands back to Flask. *)
Inductive Response : Type :=
| render_dashboard (title : string) (recent_sessions : list SessionRow.t)
    (total_sessions : Z) (total_hours : Q) (avg_focus : number)
| render_patterns (title : string) (patterns : list Finding)
| render_ai_insights (title : string) (insight : string) (data_points : Z)
| redirect (endpoint : string) (flash : string * string).

#[local] Set Warnings "-register-all".

(** [json.dumps] input: the values the code puts into [data_summary]. *)
Inductive json : Type :=
| JNull
| JInt (n : Z)
| JFloat (q : Q)
| JStr (s : string)
| JList (l : list json)
| JDict (items : list (string * json)).

Definition JOptStr (o : option string) : json :=
  match o with Some s => JStr s | None => JNull end.
Definition JOptInt (o : option Z) : json :=
  match o with Some n => JInt n | None => JNull end.
Definition JOptFloat (o : option Q) : json :=
  match o with Some q => JFloat q | None => JNull end.

(** ** Message templates of [get_ai_insights] *)

Module Template.

(** Returned when no API key is configured. *)
Definition unavailable : string :=
"🤖 AI analysis unavailable - Please configure your API key in the .env file.".

(** The getting-started text up to the [{}] field. *)
Definition getting_started_head : string :=
"🚀 **Getting Started with AI Analysis**

Welcome to your AI Learning Coach! I'm here to help you optimize your academic performance.

**Current Status:** You have ".

(** The getting-started text after the [{}] field. *)
Definition getting_started_tail : string :=
" study session(s) logged. To provide meaningful insights, I recommend logging at least 5-10 study sessions along with some wellness data.

**Quick Tips to Get Started:**
• Log your study sessions with honest focus ratings
• Track your sleep and stress levels in the wellness section
• Record any test scores or assignment grades
• Be consistent - even 5 minutes of logging can reveal patterns!

**What I'll Analyze Once You Have More Data:**
✨ Peak performance times and optimal study durations
📊 Correlations between sleep, stress, and focus
📚 Which subjects and study methods work best for you
🎯 Personalized recommendations for improvement

Keep logging your data - I'll be ready with insights soon! 🎓".

(** The fallback text up to [{str(e)}]. *)
Definition fallback_head : string :=
"🤖 **AI Analysis Temporarily Unavailable**

I'm having trouble analyzing your data right now, but don't worry! Here are some general insights while I get back online:

**Keep These Habits Strong:**
• Maintain consistent study sessions
• Track your focus and energy levels honestly  
• Log your wellness data regularly

**Try This Week:**
• Experiment with different study times to find your peak hours
• Notice how sleep affects your focus ratings
• Test different study methods and see what works

Error details: ".

(** The fallback text after [{str(e)}]. *)
Definition fallback_tail : string :=
"

Try refreshing the page in a few minutes! 🔄".

(** The prompt up to the serialized data. *)
Definition prompt_head : string :=
"
        You are an expert AI learning coach analyzing a student's academic performance data. Be encouraging, specific, and actionable.

        Student Data Analysis:
        ".

(** The prompt after the serialized data. *)
Definition prompt_tail : string :=
"

        Provide insights in this format:

        **🎯 KEY PATTERNS DISCOVERED**
        [Identify 2-3 most important patterns in their data]

        **📊 PERFORMANCE CORRELATIONS** 
        [Correlations between wellness factors and academic performance]

        **💪 YOUR STRENGTHS**
        [What they're doing well - be specific with data]

        **🚀 OPTIMIZATION OPPORTUNITIES**
        [Specific, actionable recommendations]

        **📅 NEXT STEPS**
        [Concrete actions they can take this week]

        Keep response under 400 words. Use data points and be encouraging. Include emojis for engagement.
        ".

End Template.

(** ** Rows returned by the aggregation queries of [patterns] *)

Module FocusData.
Record row : Type := mk {
  focus_rating : Z;
  avg_duration : Q
}.
End FocusData.

Module SubjectPerformance.
Record row : Type := mk {
  subject : string;
  avg_focus : Q;
  session_count : Z;
  total_minutes : Z
}.
End SubjectPerformance.

Module WellnessCorrelation.
Record row : Type := mk {
  sleep_hours : Q;
  stress_level : Z;
  avg_focus : Q
}.
End WellnessCorrelation.

(** ** The raw-SQL variant, [app.py] *)

Section App.

(** SQLite's [DATE(text)] and [TIME(text)]: the date or time part of a
    time string, NULL when the text is not one. *)
Variable sqlite_DATE : string -> option string.
Variable sqlite_TIME : string -> option string.

(** [json.dumps(value, indent=2)] *)
Variable json_dumps : json -> string.

(** *** Aggregation queries *)

(** [SELECT focus_rating, AVG(duration) as avg_duration FROM study_sessions
     GROUP BY focus_rating ORDER BY focus_rating] *)
Definition select_focus_data (db : Database) : list FocusData.row :=
  Sql.order_by
    (fun y x => FocusData.focus_rating y <? FocusData.focus_rating x)
    (map (fun g => FocusData.mk (fst g)
                     (Sql.mean (map SessionRow.duration (snd g))))
         (Sql.group_by Z.eqb SessionRow.focus_rating (study_sessions db))).

(** [SELECT s.subject, AVG(s.focus_rating) as avg_focus,
            COUNT(s.id) as session_count, SUM(s.duration) as total_minutes
     FROM study_sessions s GROUP BY s.subject
     HAVING session_count >= 2 ORDER BY avg_focus DESC] *)
Definition subject_groups (db : Database) : list SubjectPerformance.row :=
  map (fun g => SubjectPerformance.mk (fst g)
                  (Sql.mean (map SessionRow.focus_rating (snd g)))
                  (Sql.COUNT (map SessionRow.id (snd g)))
                  (Sql.total (map SessionRow.duration (snd g))))
      (Sql.group_by String.eqb SessionRow.subject (study_sessions db)).

Definition select_subject_performance (db : Database)
  : list SubjectPerformance.row :=
  Sql.order_by
    (fun y x => Qlt_bool (SubjectPerformance.avg_focus x)
                         (SubjectPerformance.avg_focus y))
    (filter (fun r => 2 <=? SubjectPerformance.session_count r)
            (subject_groups db)).

(** [a = b] on two nullable texts: NULL equals nothing. *)
Definition sql_eq (a b : option string) : bool :=
  match a, b with
  | Some x, Some y => String.eqb x y
  | _, _ => false
  end.

(** [FROM wellness_tracking w JOIN study_sessions s
     ON DATE(w.date) = DATE(s.created_at)] *)
Definition wellness_join_sessions (db : Database)
  : list (WellnessRow.t * SessionRow.t) :=
  flat_map
    (fun w => map (fun s => (w, s))
                (filter (fun s => sql_eq (sqlite_DATE (WellnessRow.date w))
                                         (sqlite_DATE (SessionRow.created_at s)))
                        (study_sessions db)))
    (wellness_tracking db).

Definition correlation_key (p : WellnessRow.t * SessionRow.t) : Q * Z :=
  (WellnessRow.sleep_hours (fst p), WellnessRow.stress_level (fst p)).

Definition correlation_key_eqb (k k' : Q * Z) : bool :=
  Qeq_bool (fst k) (fst k') && (snd k =? snd k').

(** [SELECT w.sleep_hours, w.stress_level, AVG(s.focus_rating) as avg_focus
     FROM ... GROUP BY w.sleep_hours, w.stress_level HAVING COUNT( * ) >= 2] *)
Definition select_wellness_study_correlation (db : Database)
  : list WellnessCorrelation.row :=
  map (fun g => WellnessCorrelation.mk (fst (fst g)) (snd (fst g))
                  (Sql.mean (map (fun p => SessionRow.focus_rating (snd p))
                                 (snd g))))
      (filter (fun g => 2 <=? Sql.COUNT (snd g))
              (Sql.group_by correlation_key_eqb correlation_key
                            (wellness_join_sessions db))).

(** *** The rules of [patterns], in the order of the code *)

(** [patterns.append(finding)] *)
Definition append (patterns : list Finding) (finding : Finding)
  : list Finding :=
  (patterns ++ [finding])%list.

(** The dict appended under [# Analyze focus patterns]. *)
Definition high_focus_finding (avg_duration : Q) : Finding :=
  mkFinding
    "🎯 High Focus Sessions"
    ("Your high-focus sessions (4-5 rating) average "
       ++ format_f 0 avg_duration ++ " minutes")
    "Try to replicate conditions that lead to high focus sessions!"
    "positive".

(** [# Analyze focus patterns] *)
Definition analyze_focus (focus_data : list FocusData.row)
  (patterns : list Finding) : list Finding :=
  match focus_data with
  | [] => patterns
  | _ :: _ =>
    let high_focus_sessions :=
      filter (fun row => 4 <=? FocusData.focus_rating row) focus_data in
    match high_focus_sessions with
    | [] => patterns
    | _ :: _ =>
      let avg_duration :=
        (sum (map FocusData.avg_duration high_focus_sessions)
         / inject_Z (len high_focus_sessions))%Q in
      append patterns (high_focus_finding avg_duration)
    end
  end.

(** The dicts appended under [# Analyze subject performance] and
    [# Check for struggling subjects]. *)
Definition top_subject_finding (best_subject : SubjectPerformance.row)
  : Finding :=
  mkFinding
    ("📚 Top Subject: " ++ SubjectPerformance.subject best_subject)
    ("Average focus rating: "
       ++ format_f 1 (SubjectPerformance.avg_focus best_subject)
       ++ "/5 ("
       ++ str_int (SubjectPerformance.session_count best_subject)
       ++ " sessions)")
    ("You focus well on " ++ SubjectPerformance.subject best_subject
       ++ ". Apply similar techniques to other subjects.")
    "insight".

Definition needs_attention_finding
  (struggling_subject : SubjectPerformance.row) : Finding :=
  mkFinding
    ("⚠️ Needs Attention: " ++ SubjectPerformance.subject struggling_subject)
    ("Average focus rating: "
       ++ format_f 1 (SubjectPerformance.avg_focus struggling_subject)
       ++ "/5")
    ("Try different study methods for "
       ++ SubjectPerformance.subject struggling_subject
       ++ " or study it when you're most alert.")
    "warning".

(** [# Analyze subject performance]; [subject_performance[-1]] is the last
    row. *)
Definition analyze_subjects (subject_performance : list SubjectPerformance.row)
  (patterns : list Finding) : list Finding :=
  match subject_performance with
  | [] => patterns
  | best_subject :: _ =>
    let patterns := append patterns (top_subject_finding best_subject) in
    if 1 <? len subject_performance then
      let struggling_subject := last subject_performance best_subject in
      if Qlt_bool (SubjectPerformance.avg_focus struggling_subject) 3 then
        append patterns (needs_attention_finding struggling_subject)
      else patterns
    else patterns
  end.

(** The dict appended under [# Analyze wellness correlation]. *)
Definition sleep_focus_finding (avg_focus_good_sleep : Q) : Finding :=
  mkFinding
    "😴 Sleep & Focus Connection"
    ("With 7+ hours sleep, your average focus is "
       ++ format_f 1 avg_focus_good_sleep ++ "/5")
    "Prioritize getting enough sleep for better study sessions!"
    "insight".

(** [# Analyze wellness correlation] *)
Definition analyze_wellness
  (wellness_study_correlation : list WellnessCorrelation.row)
  (patterns : list Finding) : list Finding :=
  match wellness_study_correlation with
  | [] => patterns
  | _ :: _ =>
    let high_sleep_focus :=
      filter (fun row => Qle_bool 7 (WellnessCorrelation.sleep_hours row))
             wellness_study_correlation in
    match high_sleep_focus with
    | [] => patterns
    | _ :: _ =>
      let avg_focus_good_sleep :=
        (sum (map WellnessCorrelation.avg_focus high_sleep_focus)
         / inject_Z (len high_sleep_focus))%Q in
      append patterns (sleep_focus_finding avg_focus_good_sleep)
    end
  end.

(** [# If no patterns found] *)
Definition getting_started_finding : Finding :=
  mkFinding
    "📊 Getting Started"
    "Keep logging your study sessions to discover your personal learning patterns!"
    "Try logging at least 5-10 study sessions to see meaningful insights."
    "info".

Definition analyze_fallback (patterns : list Finding) : list Finding :=
  match patterns with
  | [] => append patterns getting_started_finding
  | _ :: _ => patterns
  end.

(** The findings after the first four rules. *)
Definition rule_findings (focus_data : list FocusData.row)
  (subject_performance : list SubjectPerformance.row)
  (wellness_study_correlation : list WellnessCorrelation.row) : list Finding :=
  analyze_wellness wellness_study_correlation
    (analyze_subjects subject_performance
       (analyze_focus focus_data [])).

(** The list handed to the template. *)
Definition analyze (focus_data : list FocusData.row)
  (subject_performance : list SubjectPerformance.row)
  (wellness_study_correlation : list WellnessCorrelation.row) : list Finding :=
  analyze_fallback
    (rule_findings focus_data subject_performance wellness_study_correlation).

(** The Pattern Analysis Engine on a database. *)
Definition patterns_of (db : Database) : list Finding :=
  analyze (select_focus_data db) (select_subject_performance db)
          (select_wellness_study_correlation db).

(** [@app.route('/patterns') def patterns()] *)
Definition patterns : M Database Response :=
  conn <- get_db_connection ;;
  focus_data <- execute conn SelectFocusData select_focus_data ;;
  subject_performance <-
    execute conn SelectSubjectPerformance select_subject_performance ;;
  wellness_study_correlation <-
    execute conn SelectWellnessStudyCorrelation
            select_wellness_study_correlation ;;
  close conn ;;;
  ret (render_patterns "Pattern Analysis"
         (analyze focus_data subject_performance wellness_study_correlation)).

(** *** The Insight Narrative Generator *)

(** [ORDER BY col DESC] on a text column: [y] before [x] when [x < y]. *)
Definition text_desc (x y : string) : bool := String.ltb x y.

(** The same on a nullable text; NULL sorts below every text. *)
Definition opt_text_desc (x y : option string) : bool :=
  match x, y with
  | Some a, Some b => String.ltb a b
  | None, Some _ => true
  | _, None => false
  end.

(** [SELECT subject, duration, focus_rating, difficulty_level, study_method,
            DATE(created_at) as date, TIME(start_time) as start_time,
            TIME(end_time) as end_time
     FROM study_sessions ORDER BY created_at DESC LIMIT 20]; every row
    already as [dict(row)]. *)
Definition study_row (s : SessionRow.t) : json :=
  JDict [ ("subject", JStr (SessionRow.subject s));
          ("duration", JInt (SessionRow.duration s));
          ("focus_rating", JInt (SessionRow.focus_rating s));
          ("difficulty_level", JInt (SessionRow.difficulty_level s));
          ("study_method", JStr (SessionRow.study_method s));
          ("date", JOptStr (sqlite_DATE (SessionRow.created_at s)));
          ("start_time", JOptStr (sqlite_TIME (SessionRow.start_time s)));
          ("end_time", JOptStr (sqlite_TIME (SessionRow.end_time s))) ].

Definition select_study_data (db : Database) : list json :=
  map study_row
    (Sql.limit 20
       (Sql.order_by
          (fun y x => text_desc (SessionRow.created_at x)
                                (SessionRow.created_at y))
          (study_sessions db))).

(** [SELECT subject, score, max_score, assessment_type, date
     FROM performance_records ORDER BY date DESC LIMIT 10] *)
Definition performance_row (p : PerformanceRow.t) : json :=
  JDict [ ("subject", JStr (PerformanceRow.subject p));
          ("score", JFloat (PerformanceRow.score p));
          ("max_score", JFloat (PerformanceRow.max_score p));
          ("assessment_type", JStr (PerformanceRow.assessment_type p));
          ("date", JStr (PerformanceRow.date p)) ].

Definition select_performance_data (db : Database) : list json :=
  map performance_row
    (Sql.limit 10
       (Sql.order_by
          (fun y x => text_desc (PerformanceRow.date x) (PerformanceRow.date y))
          (performance_records db))).

(** [SELECT sleep_hours, stress_level, mood_rating, exercise_minutes,
            caffeine_intake, DATE(date) as date
     FROM wellness_tracking ORDER BY date DESC LIMIT 10]; [date] in the
    [ORDER BY] is the result column [DATE(date)]. *)
Definition wellness_row (w : WellnessRow.t) : json :=
  JDict [ ("sleep_hours", JFloat (WellnessRow.sleep_hours w));
          ("stress_level", JInt (WellnessRow.stress_level w));
          ("mood_rating", JInt (WellnessRow.mood_rating w));
          ("exercise_minutes", JOptInt (WellnessRow.exercise_minutes w));
          ("caffeine_intake", JOptInt (WellnessRow.caffeine_intake w));
          ("date", JOptStr (sqlite_DATE (WellnessRow.date w))) ].

Definition select_wellness_data (db : Database) : list json :=
  map wellness_row
    (Sql.limit 10
       (Sql.order_by
          (fun y x => opt_text_desc (sqlite_DATE (WellnessRow.date x))
                                    (sqlite_DATE (WellnessRow.date y)))
          (wellness_tracking db))).

(** [SELECT COUNT( * ) as total_sessions, AVG(focus_rating) as avg_focus,
            AVG(duration) as avg_duration,
            COUNT(DISTINCT subject) as subjects_count
     FROM study_sessions], as [dict(stats)]. *)
Definition select_stats (db : Database) : json :=
  let rows := study_sessions db in
  JDict [ ("total_sessions", JInt (Sql.COUNT rows));
          ("avg_focus", JOptFloat (Sql.AVG (map SessionRow.focus_rating rows)));
          ("avg_duration", JOptFloat (Sql.AVG (map SessionRow.duration rows)));
          ("subjects_count",
           JInt (Sql.COUNT (Sql.distinct String.eqb
                              (map SessionRow.subject rows)))) ].

(** The three texts [get_ai_insights] can return besides the service's. *)
Definition getting_started (count : Z) : string :=
  Template.getting_started_head ++ str_int count
    ++ Template.getting_started_tail.

Definition fallback (error_details : string) : string :=
  Template.fallback_head ++ error_details ++ Template.fallback_tail.

Definition make_prompt (data_summary : json) : string :=
  Template.prompt_head ++ json_dumps data_summary ++ Template.prompt_tail.

(** [data_summary = {"stats": ..., "study_sessions": [...], ...}]; the rows
    are already dicts. *)
Definition make_data_summary (stats : json)
  (study_data performance_data wellness_data : list json) : json :=
  JDict [ ("stats", stats);
          ("study_sessions", JList study_data);
          ("performance_records", JList performance_data);
          ("wellness_data", JList wellness_data) ].

(** The prompt [get_ai_insights] builds from a database. *)
Definition prompt_of (db : Database) : string :=
  make_prompt
    (make_data_summary (select_stats db) (select_study_data db)
       (select_performance_data db) (select_wellness_data db)).

(** [def get_ai_insights()]; [model] is the module-level handle, [None]
    when [GEMINI_API_KEY] is not set. *)
Definition get_ai_insights (model : option Service) : M Database string :=
  match model with
  | None => ret Template.unavailable
  | Some svc =>
    try_except
      (conn <- get_db_connection ;;
       study_data <- execute conn SelectStudyData select_study_data ;;
       performance_data <-
         execute conn SelectPerformanceData select_performance_data ;;
       wellness_data <- execute conn SelectWellnessData select_wellness_data ;;
       stats <- execute conn SelectStats select_stats ;;
       close conn ;;;
       if len study_data <? 3 then
         ret (getting_started (len study_data))
       else
         let data_summary :=
           make_data_summary stats study_data performance_data wellness_data in
         let prompt := make_prompt data_summary in
         generate_content svc prompt)
      (fun e =>
         print ("AI Analysis Error: " ++ str e) ;;;
         ret (fallback (str e)))
  end.

(** [@app.route('/ai-insights') def ai_insights()] *)
Definition ai_insights (model : option Service) : M Database Response :=
  print "🤖 Generating AI insights..." ;;;
  insight <- get_ai_insights model ;;
  conn <- get_db_connection ;;
  n_sessions <- execute conn CountStudySessions
                  (fun db => Sql.COUNT (study_sessions db)) ;;
  n_records <- execute conn CountPerformanceRecords
                 (fun db => Sql.COUNT (performance_records db)) ;;
  n_wellness <- execute conn CountWellnessTracking
                  (fun db => Sql.COUNT (wellness_tracking db)) ;;
  let data_points := n_sessions + n_records + n_wellness in
  close conn ;;;
  ret (render_ai_insights "AI Insights" insight data_points).

(** [@app.route('/dashboard') def dashboard()] *)
Definition dashboard : M Database Response :=
  conn <- get_db_connection ;;
  recent_sessions <-
    execute conn SelectRecentSessions
      (fun db => Sql.limit 5
                   (Sql.order_by
                      (fun y x => text_desc (SessionRow.created_at x)
                                            (SessionRow.created_at y))
                      (study_sessions db))) ;;
  total_sessions <- execute conn CountStudySessions
                      (fun db => Sql.COUNT (study_sessions db)) ;;
  total_hours <-
    execute conn SumDuration
      (fun db => int_or_0 (Sql.SUM (map SessionRow.duration
                                        (study_sessions db)))) ;;
  avg_focus <-
    execute conn AvgFocusRating
      (fun db => float_or_0 (Sql.AVG (map SessionRow.focus_rating
                                          (study_sessions db)))) ;;
  close conn ;;;
  ret (render_dashboard "Dashboard" recent_sessions total_sessions
         (round1 (inject_Z total_hours / 60))
         (round_1 avg_focus)).

(** [DELETE FROM study_sessions WHERE id = ?] *)
Definition delete_session_row (session_id : Z) (db : Database) : Database :=
  mkDatabase
    (filter (fun s => negb (SessionRow.id s =? session_id)) (study_sessions db))
    (performance_records db)
    (wellness_tracking db).

(** [@app.route('/delete-study-session/<int:session_id>')] *)
Definition delete_study_session (session_id : Z) : M Database Response :=
  conn <- get_db_connection ;;
  conn <- execute_update conn DeleteStudySession
            (delete_session_row session_id) ;;
  commit conn ;;;
  close conn ;;;
  ret (redirect "dashboard"
         ("Study session deleted successfully!", "success")).

End App.

(** ** The ORM models, [models.py] *)

Module models.

Module StudySession.
Record t : Type := mk {
  id : Z;
  user_id : Z;
  subject : string;
  duration : Z;
  start_time : string;
  end_time : string;
  study_method : string;
  difficulty_level : Z;
  focus_rating : Z;
  notes : option string;
  created_at : string
}.
End StudySession.

Module PerformanceRecord.
Record t : Type := mk {
  id : Z;
  user_id : Z;
  subject : string;
  assessment_type : string;
  score : Q;
  max_score : Q;
  date : string;
  topics_covered : option string;
  created_at : string
}.

(** [@property def percentage(self)]:
    [round((self.score / self.max_score) * 100, 1)] *)
Definition percentage (self : t) : result Q :=
  bind_result (truediv (score self) (max_score self))
    (fun ratio => Ok (round1 (ratio * 100))).
End PerformanceRecord.

Module WellnessTracking.
Record t : Type := mk {
  id : Z;
  user_id : Z;
  date : string;
  sleep_hours : Q;
  stress_level : Z;
  mood_rating : Z;
  exercise_minutes : option Z;
  caffeine_intake : option Z;
  notes : option string;
  created_at : string
}.
End WellnessTracking.

(** The tables behind [db]; the [users] table plays no part in what
    follows. *)
Record Tables : Type := mkTables {
  study_sessions : list StudySession.t;
  performance_records : list PerformanceRecord.t;
  wellness_tracking : list WellnessTracking.t
}.

End models.

(** A session of the ORM as a template reads it, and as the raw-SQL variant
    stores it: the columns without the owner. *)
Definition session_row (s : models.StudySession.t) : SessionRow.t :=
  SessionRow.mk (models.StudySession.id s) (models.StudySession.subject s)
    (models.StudySession.duration s) (models.StudySession.start_time s)
    (models.StudySession.end_time s) (models.StudySession.study_method s)
    (models.StudySession.difficulty_level s)
    (models.StudySession.focus_rating s) (models.StudySession.notes s)
    (models.StudySession.created_at s).

(** ** The ORM variant, [app_old.py] *)

Module AppOld.
Section Defs.

(** [datetime.strftime('%Y-%m-%d')] on a stored [created_at]. *)
Variable strftime_Ymd : string -> string.

(** [json.dumps(value, indent=2)] *)
Variable json_dumps : json -> string.

(** The proxy [current_user]: the id of the logged-in user, or the anonymous
    user, which has no [id]. *)
Definition current_user_id (current_user : option Z) : M models.Tables Z :=
  match current_user with
  | Some uid => ret uid
  | None =>
    raise (AttributeError "'AnonymousUserMixin' object has no attribute 'id'")
  end.

(** [.all()], [.count()] and [.scalar()]: the session connects when it
    needs to and runs one statement. *)
Definition run {A : Type} (q : orm_query) (rows : models.Tables -> A)
  : M models.Tables A :=
  db_guard Connect
    (db_guard (Execute (Orm q)) (fun w => (Ok (rows (tables w)), w))).

(** [StudySession.query.filter_by(user_id=uid)] and its siblings. *)
Definition sessions_of (uid : Z) (db : models.Tables)
  : list models.StudySession.t :=
  filter (fun s => models.StudySession.user_id s =? uid)
         (models.study_sessions db).

Definition records_of (uid : Z) (db : models.Tables)
  : list models.PerformanceRecord.t :=
  filter (fun p => models.PerformanceRecord.user_id p =? uid)
         (models.performance_records db).

Definition wellness_of (uid : Z) (db : models.Tables)
  : list models.WellnessTracking.t :=
  filter (fun w => models.WellnessTracking.user_id w =? uid)
         (models.wellness_tracking db).

(** [.order_by(StudySession.created_at.desc()).limit(n)] *)
Definition recent_sessions_of (n : nat) (uid : Z) (db : models.Tables)
  : list models.StudySession.t :=
  Sql.limit n
    (Sql.order_by
       (fun y x => text_desc (models.StudySession.created_at x)
                             (models.StudySession.created_at y))
       (sessions_of uid db)).

Definition recent_records_of (n : nat) (uid : Z) (db : models.Tables)
  : list models.PerformanceRecord.t :=
  Sql.limit n
    (Sql.order_by
       (fun y x => text_desc (models.PerformanceRecord.date x)
                             (models.PerformanceRecord.date y))
       (records_of uid db)).

Definition recent_wellness_of (n : nat) (uid : Z) (db : models.Tables)
  : list models.WellnessTracking.t :=
  Sql.limit n
    (Sql.order_by
       (fun y x => text_desc (models.WellnessTracking.date x)
                             (models.WellnessTracking.date y))
       (wellness_of uid db)).

(** [float(x) if x else 0] on the result of [func.avg], as it goes into
    [data_summary]. *)
Definition float_if (x : option Q) : json :=
  match x with
  | Some q => if Qeq_bool q 0 then JInt 0 else JFloat q
  | None => JInt 0
  end.

Definition study_item (s : models.StudySession.t) : json :=
  JDict [ ("subject", JStr (models.StudySession.subject s));
          ("duration", JInt (models.StudySession.duration s));
          ("focus_rating", JInt (models.StudySession.focus_rating s));
          ("difficulty_level", JInt (models.StudySession.difficulty_level s));
          ("study_method", JStr (models.StudySession.study_method s));
          ("start_time", JStr (models.StudySession.start_time s));
          ("end_time", JStr (models.StudySession.end_time s));
          ("date", JStr (strftime_Ymd (models.StudySession.created_at s))) ].

Definition performance_item (p : models.PerformanceRecord.t) : json :=
  JDict [ ("subject", JStr (models.PerformanceRecord.subject p));
          ("score", JFloat (models.PerformanceRecord.score p));
          ("max_score", JFloat (models.PerformanceRecord.max_score p));
          ("assessment_type", JStr (models.PerformanceRecord.assessment_type p));
          ("date", JStr (models.PerformanceRecord.date p)) ].

Definition wellness_item (w : models.WellnessTracking.t) : json :=
  JDict [ ("sleep_hours", JFloat (models.WellnessTracking.sleep_hours w));
          ("stress_level", JInt (models.WellnessTracking.stress_level w));
          ("mood_rating", JInt (models.WellnessTracking.mood_rating w));
          ("exercise_minutes",
           JOptInt (models.WellnessTracking.exercise_minutes w));
          ("caffeine_intake",
           JOptInt (models.WellnessTracking.caffeine_intake w));
          ("date", JStr (models.WellnessTracking.date w)) ].

Definition make_prompt (data_summary : json) : string :=
  Template.prompt_head ++ json_dumps data_summary ++ Template.prompt_tail.

(** [def get_ai_insights()] of [app_old.py] *)
Definition get_ai_insights (model : option Service) (current_user : option Z)
  : M models.Tables string :=
  match model with
  | None => ret Template.unavailable
  | Some svc =>
    try_except
      (uid <- current_user_id current_user ;;
       study_data <- run StudyData (recent_sessions_of 20 uid) ;;
       uid <- current_user_id current_user ;;
       performance_data <- run PerformanceData (recent_records_of 10 uid) ;;
       uid <- current_user_id current_user ;;
       wellness_data <- run WellnessData (recent_wellness_of 10 uid) ;;
       uid <- current_user_id current_user ;;
       total_sessions <-
         run TotalSessions (fun db => Sql.COUNT (sessions_of uid db)) ;;
       stats <-
         (if 0 <? total_sessions then
            avg_focus <-
              run AvgFocus
                (fun db => Sql.AVG (map models.StudySession.focus_rating
                                        (sessions_of uid db))) ;;
            avg_duration <-
              run AvgDuration
                (fun db => Sql.AVG (map models.StudySession.duration
                                        (sessions_of uid db))) ;;
            subjects_count <-
              run SubjectsCount
                (fun db => Sql.COUNT
                             (Sql.distinct String.eqb
                                (map models.StudySession.subject
                                     (sessions_of uid db)))) ;;
            ret (float_if avg_focus, float_if avg_duration, subjects_count)
          else ret (JInt 0, JInt 0, 0)) ;;
       let '(avg_focus, avg_duration, subjects_count) := stats in
       if len study_data <? 3 then
         ret (getting_started (len study_data))
       else
         let data_summary :=
           JDict [ ("stats",
                    JDict [ ("total_sessions", JInt total_sessions);
                            ("avg_focus", avg_focus);
                            ("avg_duration", avg_duration);
                            ("subjects_count", JInt subjects_count) ]);
                   ("study_sessions", JList (map study_item study_data));
                   ("performance_records",
                    JList (map performance_item performance_data));
                   ("wellness_data",
                    JList (map wellness_item wellness_data)) ] in
         let prompt := make_prompt data_summary in
         generate_content svc prompt)
      (fun e =>
         print ("AI Analysis Error: " ++ str e) ;;;
         ret (fallback (str e)))
  end.

(** [round(float(avg_focus), 1) if avg_focus else 0] *)
Definition round_if (avg_focus : number) : number :=
  match avg_focus with
  | PyInt n => if n =? 0 then PyInt 0 else PyFloat (round1 (inject_Z n))
  | PyFloat q => if Qeq_bool q 0 then PyInt 0 else PyFloat (round1 q)
  end.

(** [@app.route('/dashboard') @login_required def dashboard()]; an
    anonymous visitor is sent to the login view. *)
Definition dashboard (current_user : option Z) : M models.Tables Response :=
  match current_user with
  | None => ret (redirect "login" ("Please log in to access this page.", "info"))
  | Some _ =>
    uid <- current_user_id current_user ;;
    recent_sessions <- run RecentSessions (recent_sessions_of 5 uid) ;;
    uid <- current_user_id current_user ;;
    total_sessions <-
      run TotalSessions (fun db => Sql.COUNT (sessions_of uid db)) ;;
    uid <- current_user_id current_user ;;
    total_minutes <-
      run TotalMinutes
        (fun db => int_or_0 (Sql.SUM (map models.StudySession.duration
                                          (sessions_of uid db)))) ;;
    uid <- current_user_id current_user ;;
    avg_focus <-
      run AvgFocus
        (fun db => float_or_0 (Sql.AVG (map models.StudySession.focus_rating
                                            (sessions_of uid db)))) ;;
    ret (render_dashboard "Dashboard" (map session_row recent_sessions)
           total_sessions
           (round1 (inject_Z total_minutes / 60))
           (round_if avg_focus))
  end.

(** [get_db_connection] is neither defined in [app_old.py] nor imported
    into it: evaluating the name raises. *)
Definition get_db_connection : M Database (Conn Database) :=
  raise (NameError "name 'get_db_connection' is not defined").

(** [@app.route('/patterns') def patterns()] of [app_old.py]; the body is
    that of [app.py]. *)
Definition patterns (sqlite_DATE : string -> option string)
  : M Database Response :=
  conn <- get_db_connection ;;
  focus_data <- execute conn SelectFocusData select_focus_data ;;
  subject_performance <-
    execute conn SelectSubjectPerformance select_subject_performance ;;
  wellness_study_correlation <-
    execute conn SelectWellnessStudyCorrelation
            (select_wellness_study_correlation sqlite_DATE) ;;
  close conn ;;;
  ret (render_patterns "Pattern Analysis"
         (analyze focus_data subject_performance wellness_study_correlation)).

End Defs.
End AppOld.





(** ** Stand-ins for the library functions, used in the concrete examples *)

Definition is_digit (c : ascii) : bool :=
  let n := nat_of_ascii c in ((48 <=? n) && (n <=? 57))%nat.

(** [shape pattern s]: [s] has the layout [pattern], where [d] in the
    pattern stands for a digit and any other character for itself. *)
Fixpoint shape (pattern s : string) : bool :=
  match pattern, s with
  | EmptyString, EmptyString => true
  | String p pattern', String c s' =>
    (if Ascii.eqb p "d" then is_digit c else Ascii.eqb p c)
    && shape pattern' s'
  | _, _ => false
  end.

(** SQLite's [DATE] on the two layouts the application stores, the
    [YYYY-MM-DD] of a date field and the [YYYY-MM-DD HH:MM:SS] of
    [CURRENT_TIMESTAMP]; NULL on any other text. *)
Definition iso_DATE (s : string) : option string :=
  if shape "dddd-dd-dd" s || shape "dddd-dd-dd dd:dd:dd" s
  then Some (substring 0 10 s) else None.

(** SQLite's [TIME] on [HH:MM] and [HH:MM:SS]; NULL on any other text. *)
Definition iso_TIME (s : string) : option string :=
  if shape "dd:dd" s then Some (s ++ ":00")
  else if shape "dd:dd:dd" s then Some s else None.

(** A serializer that tells nothing about its argument; the properties
    below hold for every serializer. *)
Definition opaque_dumps (_ : json) : string := "{...}".

(** ** Vocabulary of the statements *)

(** The sessions logged for a subject, and those with a given rating. *)
Definition sessions_on_subject (subject : string) (db : Database)
  : list SessionRow.t :=
  filter (fun s => String.eqb subject (SessionRow.subject s))
         (study_sessions db).


(** The findings of one category. *)
Definition findings_of_type (t : string) (l : list Finding) : list Finding :=
  filter (fun f => String.eqb (type f) t) l.

(** [sub in s] *)
Definition contains (s sub : string) : Prop :=
  exists pre post, s = pre ++ sub ++ post.

(** The message of the first action in [actions] at which the store
    fails. *)
Fixpoint first_fault (fault : db_action -> option string)
  (actions : list db_action) : option string :=
  match actions with
  | [] => None
  | a :: rest =>
    match fault a with
    | Some msg => Some msg
    | None => first_fault fault rest
    end
  end.


(** The joined rows that fall into the group of a [(sleep_hours,
    stress_level)] pair. *)
Definition correlation_group (sqlite_DATE : string -> option string)
  (sleep_hours : Q) (stress_level : Z) (db : Database)
  : list (WellnessRow.t * SessionRow.t) :=
  filter (fun p => correlation_key_eqb (sleep_hours, stress_level)
                                       (correlation_key p))
         (wellness_join_sessions sqlite_DATE db).

Definition correlation_row_key (r : WellnessCorrelation.row) : Q * Z :=
  (WellnessCorrelation.sleep_hours r, WellnessCorrelation.stress_level r).


(** The store actions of each handler, in the order it performs them. *)
Definition insight_actions : list db_action :=
  [Connect; Execute SelectStudyData; Execute SelectPerformanceData;
   Execute SelectWellnessData; Execute SelectStats].

Definition patterns_actions : list db_action :=
  [Connect; Execute SelectFocusData; Execute SelectSubjectPerformance;
   Execute SelectWellnessStudyCorrelation].

Definition count_actions : list db_action :=
  [Connect; Execute CountStudySessions; Execute CountPerformanceRecords;
   Execute CountWellnessTracking].

Definition delete_actions : list db_action :=
  [Connect; Execute DeleteStudySession; Commit].

Definition dashboard_actions : list db_action :=
  [Connect; Execute SelectRecentSessions; Execute CountStudySessions;
   Execute SumDuration; Execute AvgFocusRating].


(** The session count a dashboard response shows. *)
Definition shown_total (r : result Response) : option Z :=
  match r with
  | Ok (render_dashboard _ _ total_sessions _ _) => Some total_sessions
  | _ => None
  end.


(** Following the spec's words for [sleepFocusCorrelation()]: the joined
    rows grouped by their calendar date, groups of at least 2 rows; a group
    shows the sleep hours and stress level of its first row. *)
Definition sleep_focus_correlation_by_date
  (sqlite_DATE : string -> option string) (db : Database)
  : list WellnessCorrelation.row :=
  flat_map
    (fun g =>
       match snd g with
       | [] => []
       | p :: _ =>
         [WellnessCorrelation.mk
            (WellnessRow.sleep_hours (fst p))
            (WellnessRow.stress_level (fst p))
            (Sql.mean (map (fun p => SessionRow.focus_rating (snd p))
                           (snd g)))]
       end)
    (filter (fun g => 2 <=? Sql.COUNT (snd g))
            (Sql.group_by sql_eq
               (fun p => sqlite_DATE (WellnessRow.date (fst p)))
               (wellness_join_sessions sqlite_DATE db))).

(** ** Example data *)

Module Sample.

Definition math1 : SessionRow.t :=
  SessionRow.mk 1 "Math" 30 "09:00" "09:30" "Practice" 3 4 None
                "2024-03-01 09:30:00".
Definition math2 : SessionRow.t :=
  SessionRow.mk 2 "Math" 50 "14:00" "14:50" "Practice" 3 4 None
                "2024-03-02 14:50:00".
Definition physics1 : SessionRow.t :=
  SessionRow.mk 3 "Physics" 60 "10:00" "11:00" "Reading" 4 5 None
                "2024-03-03 11:00:00".

Definition history1 : SessionRow.t :=
  SessionRow.mk 4 "History" 45 "16:00" "16:45" "Reading" 2 2 None
                "2024-03-04 16:45:00".
Definition history2 : SessionRow.t :=
  SessionRow.mk 5 "History" 15 "20:00" "20:15" "Flashcards" 2 2 None
                "2024-03-05 20:15:00".

Definition two_sessions : Database := mkDatabase [math1; math2] [] [].
Definition two_subjects : Database :=
  mkDatabase [math1; history1; math2; history2] [] [].
Definition three_sessions : Database :=
  mkDatabase [math1; math2; physics1] [] [].

(** Two days with the same sleep and stress, one session on each. *)
Definition day1 : WellnessRow.t :=
  WellnessRow.mk 1 "2024-03-01" 8 2 4 (Some 0) (Some 0) None
                 "2024-03-01 08:00:00".
Definition day2 : WellnessRow.t :=
  WellnessRow.mk 2 "2024-03-02" 8 2 4 (Some 0) (Some 0) None
                 "2024-03-02 08:00:00".
Definition two_days : Database := mkDatabase [math1; math2] [] [day1; day2].

(** Three sessions of user 1; user 2 has logged nothing. *)
Definition owned (uid : Z) (s : SessionRow.t) : models.StudySession.t :=
  models.StudySession.mk (SessionRow.id s) uid (SessionRow.subject s)
    (SessionRow.duration s) (SessionRow.start_time s) (SessionRow.end_time s)
    (SessionRow.study_method s) (SessionRow.difficulty_level s)
    (SessionRow.focus_rating s) (SessionRow.notes s) (SessionRow.created_at s).

Definition shared_tables : models.Tables :=
  models.mkTables [owned 1 math1; owned 1 math2; owned 1 physics1] [] [].

(** A service that answers every prompt. *)
Definition narrator : Service :=
  fun _ _ => Ok "**KEY PATTERNS DISCOVERED** You focus best on Physics.".

(** A service that answers three prompts and raises on the fourth. *)
Definition fails_on_fourth : Service :=
  fun answered _ =>
    if (List.length answered =? 3)%nat
    then Raise (ServiceError "429 Resource has been exhausted")
    else Ok "ok".

(** A store that cannot be opened. *)
Definition cannot_connect : db_action -> option string :=
  fun a => match a with
           | Connect => Some "unable to open database file"
           | _ => None
           end.

(** [strftime('%Y-%m-%d')] on a stored timestamp. *)
Definition strftime_Ymd (created_at : string) : string :=
  substring 0 10 created_at.

(** A healthy store holding [db]; nothing printed or submitted yet. *)
Definition world_of {D : Type} (db : D) : World D :=
  mkWorld db no_fault [] [].

(** The same after the service has answered three prompts. *)
Definition after_three_prompts : World Database :=
  mkWorld three_sessions no_fault ["first"; "second"; "third"] [].

(** Three sessions in a store that cannot be opened. *)
Definition unreachable : World Database :=
  mkWorld three_sessions cannot_connect [] [].

End Sample.

(** ** The remaining handlers of [app.py] *)

(** [request.form]: the fields of a POST body; the first value of a key
    wins. *)
Definition Form : Type := list (string * string).

Fixpoint form_get (form : Form) (key : string) : option string :=
  match form with
  | [] => None
  | (k, v) :: rest => if String.eqb k key then Some v else form_get rest key
  end.

(** What reading the form can raise: [request.form[key]] on a missing key
    (Flask answers 400), [int(text)] and [float(text)] on a text that is no
    number. *)
Inductive request_exn : Type :=
| BadRequestKeyError (key : string)
| ValueError (text : string).

Inductive parsed (A : Type) : Type :=
| Parsed (a : A)
| Rejected (e : request_exn).
Arguments Parsed {A} a.
Arguments Rejected {A} e.

Definition and_then {A B : Type} (p : parsed A) (k : A -> parsed B)
  : parsed B :=
  match p with Parsed a => k a | Rejected e => Rejected e end.

(** How a handler that reads a form ends: with its return value, with an
    exception of the form, or with an exception of the store. *)
Inductive outcome (A : Type) : Type :=
| Returned (a : A)
| Aborted (e : request_exn)
| Failed (e : exn).
Arguments Returned {A} a.
Arguments Aborted {A} e.
Arguments Failed {A} e.

(** What these handlers return: a page without data, a JSON body, or one of
    the responses above. *)
Inductive Reply : Type :=
| render_template (template : string) (title : string)
| jsonify (body : json)
| respond (r : Response).

Definition Handler (D : Type) : Type := World D -> outcome Reply * World D.

Definition run_store {D : Type} (m : M D Reply) : Handler D :=
  fun w => match m w with
           | (Ok a, w') => (Returned a, w')
           | (Raise e, w') => (Failed e, w')
           end.

(** The statements of these handlers. *)
Inductive more_statement : Type :=
| InsertStudySession
| InsertPerformanceRecord
| InsertWellnessTracking
| DeletePerformanceRecord
| DeleteWellnessEntry
| SelectSubjectData
| SelectDailyData.

(** [INSERT INTO ... VALUES (...)]: the new row goes to the end of its
    table. *)
Definition insert_session_row (row : SessionRow.t) (db : Database)
  : Database :=
  mkDatabase (study_sessions db ++ [row])%list (performance_records db)
             (wellness_tracking db).

Definition insert_performance_row (row : PerformanceRow.t) (db : Database)
  : Database :=
  mkDatabase (study_sessions db) (performance_records db ++ [row])%list
             (wellness_tracking db).


(** [DELETE FROM performance_records WHERE id = ?] and
    [DELETE FROM wellness_tracking WHERE id = ?] *)
Definition delete_performance_row (record_id : Z) (db : Database)
  : Database :=
  mkDatabase
    (study_sessions db)
    (filter (fun p => negb (PerformanceRow.id p =? record_id))
            (performance_records db))
    (wellness_tracking db).

Definition delete_wellness_row (entry_id : Z) (db : Database) : Database :=
  mkDatabase
    (study_sessions db)
    (performance_records db)
    (filter (fun e => negb (WellnessRow.id e =? entry_id))
            (wellness_tracking db)).

(** Equality of two nullable texts as [GROUP BY] sees it: NULLs form one
    group. *)
Definition same_group (a b : option string) : bool :=
  match a, b with
  | Some x, Some y => String.eqb x y
  | None, None => true
  | _, _ => false
  end.

Section Handlers.

(** Python's [int(text)] and [float(text)]; [None] stands for
    [ValueError]. *)
Variable py_int : string -> option Z.
Variable py_float : string -> option Q.

(** SQLite's [DATE(text)]. *)
Variable sqlite_DATE : string -> option string.

(** The faults of the store on the statements of these handlers. *)
Variable more_fault : more_statement -> option string.

Definition more_guard {A : Type} (s : more_statement) (k : M Database A)
  : M Database A :=
  fun w => match more_fault s with
           | Some msg => (Raise (DataStoreError msg), w)
           | None => k w
           end.

Definition execute_more {A : Type} (conn : Conn Database)
  (s : more_statement) (rows : Database -> A) : M Database A :=
  more_guard s (ret (rows (pending conn))).

Definition execute_update_more (conn : Conn Database) (s : more_statement)
  (change : Database -> Database) : M Database (Conn Database) :=
  more_guard s (ret (mkConn (change (pending conn)))).

(** [request.form[key]], [int(request.form[key])],
    [float(request.form[key])], [request.form.get(key, '')] and
    [int(request.form.get(key, 0))]. *)
Definition field (form : Form) (key : string) : parsed string :=
  match form_get form key with
  | Some v => Parsed v
  | None => Rejected (BadRequestKeyError key)
  end.

Definition int_of (text : string) : parsed Z :=
  match py_int text with
  | Some n => Parsed n
  | None => Rejected (ValueError text)
  end.

Definition float_of (text : string) : parsed Q :=
  match py_float text with
  | Some q => Parsed q
  | None => Rejected (ValueError text)
  end.

Definition int_field (form : Form) (key : string) : parsed Z :=
  and_then (field form key) int_of.

Definition float_field (form : Form) (key : string) : parsed Q :=
  and_then (field form key) float_of.

Definition text_or_empty (form : Form) (key : string) : string :=
  match form_get form key with Some v => v | None => "" end.


(** [# Get form data] of [log_study], in the order of the code, as the row
    the INSERT writes; [rowid] is the id SQLite assigns and [now] its
    [CURRENT_TIMESTAMP]. *)
Definition study_form (rowid : Z) (now : string) (form : Form)
  : parsed SessionRow.t :=
  and_then (field form "subject") (fun subject =>
  and_then (int_field form "duration") (fun duration =>
  and_then (field form "start_time") (fun start_time =>
  and_then (field form "end_time") (fun end_time =>
  and_then (field form "study_method") (fun study_method =>
  and_then (int_field form "difficulty_level") (fun difficulty_level =>
  and_then (int_field form "focus_rating") (fun focus_rating =>
  let notes := text_or_empty form "notes" in
  Parsed (SessionRow.mk rowid subject duration start_time end_time
            study_method difficulty_level focus_rating (Some notes)
            now)))))))).

(** [@app.route('/log-study', methods=['GET', 'POST']) def log_study()] *)
Definition log_study (method : string) (form : Form) (rowid : Z)
  (now : string) : Handler Database :=
  fun w =>
    if String.eqb method "POST" then
      match study_form rowid now form with
      | Rejected e => (Aborted e, w)
      | Parsed row =>
        run_store
          (conn <- get_db_connection ;;
           conn <- execute_update_more conn InsertStudySession
                     (insert_session_row row) ;;
           commit conn ;;;
           close conn ;;;
           ret (respond
                  (redirect "dashboard"
                     ("Study session logged successfully! 📚", "success"))))
          w
      end
    else (Returned (render_template "log_study.html" "Log Study Session"), w).

Definition performance_form (rowid : Z) (now : string) (form : Form)
  : parsed PerformanceRow.t :=
  and_then (field form "subject") (fun subject =>
  and_then (field form "assessment_type") (fun assessment_type =>
  and_then (float_field form "score") (fun score =>
  and_then (float_field form "max_score") (fun max_score =>
  and_then (field form "date") (fun date =>
  let topics_covered := text_or_empty form "topics_covered" in
  Parsed (PerformanceRow.mk rowid subject assessment_type score max_score
            date (Some topics_covered) now)))))).

(** [@app.route('/log-performance', ...) def log_performance()] *)
Definition log_performance (method : string) (form : Form) (rowid : Z)
  (now : string) : Handler Database :=
  fun w =>
    if String.eqb method "POST" then
      match performance_form rowid now form with
      | Rejected e => (Aborted e, w)
      | Parsed row =>
        run_store
          (conn <- get_db_connection ;;
           conn <- execute_update_more conn InsertPerformanceRecord
                     (insert_performance_row row) ;;
           commit conn ;;;
           close conn ;;;
           ret (respond
                  (redirect "dashboard"
                     ("Performance record added successfully! 📈",
                      "success"))))
          w
      end
    else (Returned (render_template "log_performance.html" "Log Performance"),
          w).



(** [@app.route('/delete-performance-record/<int:record_id>')] *)
Definition delete_performance_record (record_id : Z) : M Database Response :=
  conn <- get_db_connection ;;
  conn <- execute_update_more conn DeletePerformanceRecord
            (delete_performance_row record_id) ;;
  commit conn ;;;
  close conn ;;;
  ret (redirect "dashboard"
         ("Performance record deleted successfully!", "success")).

(** [@app.route('/delete-wellness-entry/<int:entry_id>')] *)
Definition delete_wellness_entry (entry_id : Z) : M Database Response :=
  conn <- get_db_connection ;;
  conn <- execute_update_more conn DeleteWellnessEntry
            (delete_wellness_row entry_id) ;;
  commit conn ;;;
  close conn ;;;
  ret (redirect "dashboard"
         ("Wellness entry deleted successfully!", "success")).

(** [SELECT subject, SUM(duration) as total_minutes FROM study_sessions
     GROUP BY subject] *)
Definition select_subject_data (db : Database) : list (string * Z) :=
  map (fun g => (fst g, Sql.total (map SessionRow.duration (snd g))))
      (Sql.group_by String.eqb SessionRow.subject (study_sessions db)).

(** [SELECT DATE(created_at) as date, SUM(duration) as total_minutes
     FROM study_sessions WHERE created_at >= datetime('now', '-7 days')
     GROUP BY DATE(created_at) ORDER BY date]; [week_ago] is the value of
    [datetime('now', '-7 days')]. *)
Definition sessions_since (week_ago : string) (db : Database)
  : list SessionRow.t :=
  filter (fun s => negb (String.ltb (SessionRow.created_at s) week_ago))
         (study_sessions db).

Definition select_daily_data (week_ago : string) (db : Database)
  : list (option string * Z) :=
  Sql.order_by
    (fun y x => opt_text_desc (fst y) (fst x))
    (map (fun g => (fst g, Sql.total (map SessionRow.duration (snd g))))
         (Sql.group_by same_group
            (fun s => sqlite_DATE (SessionRow.created_at s))
            (sessions_since week_ago db))).

(** [round(row['total_minutes']/60, 1)] *)
Definition hours (total_minutes : Z) : json :=
  JFloat (round1 (inject_Z total_minutes / 60)).

(** [@app.route('/api/study-data') def api_study_data()] *)
Definition api_study_data (week_ago : string) : Handler Database :=
  run_store
    (conn <- get_db_connection ;;
     subject_data <- execute_more conn SelectSubjectData select_subject_data ;;
     daily_data <-
       execute_more conn SelectDailyData (select_daily_data week_ago) ;;
     close conn ;;;
     ret (jsonify
            (JDict
               [ ("subjects",
                  JList (map (fun row =>
                                JDict [ ("subject", JStr (fst row));
                                        ("hours", hours (snd row)) ])
                             subject_data));
                 ("daily",
                  JList (map (fun row =>
                                JDict [ ("date", JOptStr (fst row));
                                        ("hours", hours (snd row)) ])
                             daily_data)) ]))).

(** [@app.route('/') def home()] *)
Definition home : Handler Database :=
  fun w => (Returned (render_template "base.html"
                        "Academic Performance Pattern Detector"), w).

End Handlers.

(** ** The remaining handlers of [app_old.py] *)

Module AppOldRest.
Section Defs.
Variable py_int : string -> option Z.
Variable strftime_Ymd : string -> string.
Variable json_dumps : json -> string.
Variable more_fault : more_statement -> option string.

(** A name that the module neither defines nor imports. *)
Definition undefined_name {D A : Type} (name : string) : M D A :=
  raise (NameError ("name '" ++ name ++ "' is not defined")).

(** [@app.route('/ai-insights') def ai_insights()] of [app_old.py] *)
Definition ai_insights (model : option Service) (current_user : option Z)
  : M models.Tables Response :=
  print "🤖 Generating AI insights..." ;;;
  insight <- AppOld.get_ai_insights strftime_Ymd json_dumps model
               current_user ;;
  conn <- undefined_name "get_db_connection" ;;
  n_sessions <- execute conn CountStudySessions
                  (fun db => Sql.COUNT (models.study_sessions db)) ;;
  n_records <- execute conn CountPerformanceRecords
                 (fun db => Sql.COUNT (models.performance_records db)) ;;
  n_wellness <- execute conn CountWellnessTracking
                  (fun db => Sql.COUNT (models.wellness_tracking db)) ;;
  let data_points := n_sessions + n_records + n_wellness in
  close conn ;;;
  ret (render_ai_insights "AI Insights" insight data_points).

(** [@app.route('/log-study', ...) def log_study()] of [app_old.py]: the
    body of [app.py], in which the name [get_db_connection] is looked
    up. *)
Definition log_study (method : string) (form : Form) (rowid : Z)
  (now : string) : Handler Database :=
  fun w =>
    if String.eqb method "POST" then
      match study_form py_int rowid now form with
      | Rejected e => (Aborted e, w)
      | Parsed row =>
        run_store
          (conn <- undefined_name "get_db_connection" ;;
           conn <- execute_update_more more_fault conn InsertStudySession
                     (insert_session_row row) ;;
           commit conn ;;;
           close conn ;;;
           ret (respond
                  (redirect "dashboard"
                     ("Study session logged successfully! 📚", "success"))))
          w
      end
    else (Returned (render_template "log_study.html" "Log Study Session"), w).

(** [@app.route('/delete-study-session/<int:session_id>')] of
    [app_old.py] *)
Definition delete_study_session (session_id : Z) : M Database Response :=
  conn <- undefined_name "get_db_connection" ;;
  conn <- execute_update conn DeleteStudySession
            (delete_session_row session_id) ;;
  commit conn ;;;
  close conn ;;;
  ret (redirect "dashboard"
         ("Study session deleted successfully!", "success")).

End Defs.
End AppOldRest.

(** [PerformanceRecord.__repr__]:
    [f'<PerformanceRecord {self.subject} - {self.percentage}%>'];
    [float_str] is [str] of a float. *)
Definition performance_repr (float_str : Q -> string)
  (self : models.PerformanceRecord.t) : result string :=
  bind_result (models.PerformanceRecord.percentage self)
    (fun percentage =>
       Ok ("<PerformanceRecord " ++ models.PerformanceRecord.subject self
             ++ " - " ++ float_str percentage ++ "%>")).

(** Python's [int] and [float] on plain decimal integers, for the
    examples. *)
Definition dec_int (text : string) : option Z :=
  option_map Z.of_int (NilZero.int_of_string text).

Definition dec_float (text : string) : option Q :=
  option_map inject_Z (dec_int text).

(** ** Vocabulary of the further properties *)

(** [a] was created no earlier than [b], as [ORDER BY created_at] compares
    the two texts. *)
Definition not_older (a b : SessionRow.t) : Prop :=
  String.ltb (SessionRow.created_at a) (SessionRow.created_at b) = false.

(** The world after a statement changed the tables. *)
Definition with_tables (w : World Database) (db : Database)
  : World Database :=
  mkWorld db (fault w) (service_log w) (stdout w).


(** A store without faults on the statements of the further handlers, and
    three forms, each without its optional fields. *)
Definition healthy : more_statement -> option string := fun _ => None.

Module Request.

Definition study : Form :=
  [ ("subject", "Chemistry"); ("duration", "25"); ("start_time", "18:00");
    ("end_time", "18:25"); ("study_method", "Flashcards");
    ("difficulty_level", "2"); ("focus_rating", "3") ].

Definition performance : Form :=
  [ ("subject", "Chemistry"); ("assessment_type", "Quiz"); ("score", "7");
    ("max_score", "0"); ("date", "2024-03-06") ].


End Request.

(** * Properties *)

(** ** Facts about the SQL building blocks *)

Section SqlFacts.
Context {A K : Type}.

Lemma insert_by_In (before : A -> A -> bool) (x a : A) (l : list A) :
  In a (Sql.insert_by before x l) <-> a = x \/ In a l.
Proof.
  induction l as [|y r IH]; simpl.
  - intuition congruence.
  - destruct (before y x); simpl; rewrite ?IH; intuition congruence.
Qed.

Lemma order_by_In (before : A -> A -> bool) (a : A) (l : list A) :
  In a (Sql.order_by before l) <-> In a l.
Proof.
  induction l as [|x r IH]; simpl; [tauto|].
  rewrite insert_by_In, IH. intuition congruence.
Qed.

Lemma insert_by_length (before : A -> A -> bool) (x : A) (l : list A) :
  List.length (Sql.insert_by before x l) = S (List.length l).
Proof.
  induction l as [|y r IH]; simpl; [reflexivity|].
  destruct (before y x); simpl; congruence.
Qed.

Lemma order_by_length (before : A -> A -> bool) (l : list A) :
  List.length (Sql.order_by before l) = List.length l.
Proof.
  induction l as [|x r IH]; simpl; [reflexivity|].
  rewrite insert_by_length. congruence.
Qed.

Lemma insert_by_NoDup {B : Type} (f : A -> B) before (x : A) (l : list A) :
  NoDup (map f (x :: l)) -> NoDup (map f (Sql.insert_by before x l)).
Proof.
  induction l as [|y r IH]; simpl; intros H; [exact H|].
  destruct (before y x); simpl; [|exact H].
  inversion H as [|? ? Hx Hr]; subst. inversion Hr as [|? ? Hy Hr']; subst.
  simpl in Hx. constructor.
  - rewrite in_map_iff. intros [a [Ea Ha]]. apply insert_by_In in Ha.
    destruct Ha as [->|Ha].
    + apply Hx. left. congruence.
    + apply Hy. rewrite <- Ea. now apply in_map.
  - apply IH. simpl. constructor; [tauto | exact Hr'].
Qed.

Lemma order_by_NoDup {B : Type} (f : A -> B) before (l : list A) :
  NoDup (map f l) -> NoDup (map f (Sql.order_by before l)).
Proof.
  induction l as [|x r IH]; simpl; intros H; [constructor|].
  apply insert_by_NoDup. simpl. inversion H as [|? ? Hx Hr]; subst.
  constructor.
  - rewrite in_map_iff. intros [a [Ea Ha]]. apply order_by_In in Ha.
    apply Hx. rewrite <- Ea. now apply in_map.
  - now apply IH.
Qed.

(** Sorting by [before] yields a list sorted for any transitive [R] that
    [before] decides. *)
Section Sorted.
Variable before : A -> A -> bool.
Variable R : A -> A -> Prop.
Hypothesis R_trans : forall a b c, R a b -> R b c -> R a c.
Hypothesis before_true : forall y x, before y x = true -> R y x.
Hypothesis before_false : forall y x, before y x = false -> R x y.

Lemma insert_by_sorted (x : A) (l : list A) :
  StronglySorted R l -> StronglySorted R (Sql.insert_by before x l).
Proof.
  induction l as [|y r IH]; simpl; intros H.
  - constructor; [constructor | constructor].
  - inversion H as [|? ? Hr Hy]; subst.
    destruct (before y x) eqn:E.
    + constructor; [now apply IH|].
      rewrite Forall_forall. intros a Ha. apply insert_by_In in Ha.
      destruct Ha as [->|Ha]; [now apply before_true|].
      rewrite Forall_forall in Hy. now apply Hy.
    + constructor; [exact H|].
      constructor; [now apply before_false|].
      rewrite Forall_forall in Hy |- *. intros a Ha.
      apply R_trans with y; [now apply before_false | now apply Hy].
Qed.

Lemma order_by_sorted (l : list A) : StronglySorted R (Sql.order_by before l).
Proof.
  induction l as [|x r IH]; simpl; [constructor | now apply insert_by_sorted].
Qed.
End Sorted.

(** [distinct] for a test [eqb] that is an equivalence. *)
Section Distinct.
Variable eqb : K -> K -> bool.
Hypothesis eqb_refl : forall k, eqb k k = true.
Hypothesis eqb_sym : forall k k', eqb k k' = eqb k' k.
Hypothesis eqb_trans :
  forall a b c, eqb a b = true -> eqb b c = true -> eqb a c = true.

Lemma distinct_In (k : K) (l : list K) : In k (Sql.distinct eqb l) -> In k l.
Proof.
  induction l as [|x r IH]; simpl; [tauto|].
  intros [->|H]; [now left|]. apply filter_In in H. right. tauto.
Qed.

Lemma distinct_covers (k : K) (l : list K) :
  In k l -> exists k', In k' (Sql.distinct eqb l) /\ eqb k' k = true.
Proof.
  induction l as [|x r IH]; simpl; [tauto|].
  intros [->|H]; [exists k; auto|].
  destruct (IH H) as [k' [Hk' E]].
  destruct (eqb x k') eqn:Exk.
  - exists x. split; [now left | now apply eqb_trans with k'].
  - exists k'. split; [|exact E]. right. apply filter_In. split; [exact Hk'|].
    now rewrite Exk.
Qed.

(** No two members of [distinct eqb l] pass [eqb]. *)
Lemma distinct_apart (l : list K) :
  ForallOrdPairs (fun a b => eqb a b = false) (Sql.distinct eqb l).
Proof.
  induction l as [|x r IH]; simpl; [constructor|].
  constructor.
  - rewrite Forall_forall. intros k Hk. apply filter_In in Hk.
    destruct Hk as [_ Hk]. now destruct (eqb x k).
  - clear - IH. induction IH as [|a l Ha Hl IHl]; simpl; [constructor|].
    destruct (negb (eqb x a)); [|exact IHl].
    constructor; [|exact IHl].
    rewrite Forall_forall in Ha |- *. intros k Hk. apply filter_In in Hk.
    now apply Ha.
Qed.

Lemma distinct_NoDup (l : list K) : NoDup (Sql.distinct eqb l).
Proof.
  pose proof (distinct_apart l) as H.
  induction H as [|a r Ha Hr IH]; constructor; [|exact IH].
  intros Hin. rewrite Forall_forall in Ha. specialize (Ha a Hin).
  rewrite eqb_refl in Ha. discriminate.
Qed.

Lemma group_by_In (key : A -> K) (rows : list A) (g : K * list A) :
  In g (Sql.group_by eqb key rows) ->
  snd g = filter (fun r => eqb (fst g) (key r)) rows /\
  In (fst g) (map key rows) /\ snd g <> [].
Proof.
  unfold Sql.group_by. rewrite in_map_iff. intros [k [<- Hk]]. simpl.
  apply distinct_In in Hk. repeat split; [exact Hk|].
  apply in_map_iff in Hk. destruct Hk as [r [Er Hr]].
  assert (In r (filter (fun r0 => eqb k (key r0)) rows)) as Hin.
  { apply filter_In. split; [exact Hr|]. rewrite Er. apply eqb_refl. }
  intros E. rewrite E in Hin. exact Hin.
Qed.

Lemma group_by_keys (key : A -> K) (rows : list A) :
  map fst (Sql.group_by eqb key rows) = Sql.distinct eqb (map key rows).
Proof.
  unfold Sql.group_by. rewrite map_map. simpl. apply map_id.
Qed.
End Distinct.
End SqlFacts.

Lemma NoDup_map_filter {Row Key : Type} (keep : Row -> bool)
  (key : Row -> Key) (rows : list Row) :
  NoDup (map key rows) -> NoDup (map key (filter keep rows)).
Proof.
  intros Hnd. induction rows as [|x r IH]; simpl; [constructor|].
  simpl in Hnd. apply NoDup_cons_iff in Hnd. destruct Hnd as [Hx Hr].
  destruct (keep x); simpl; [|now apply IH].
  apply NoDup_cons; [|now apply IH].
  intros Hin. apply in_map_iff in Hin. destruct Hin as [a [Ea Ha]].
  apply filter_In in Ha. apply Hx. rewrite <- Ea. apply in_map. tauto.
Qed.

Lemma string_eqb_trans (a b c : string) :
  String.eqb a b = true -> String.eqb b c = true -> String.eqb a c = true.
Proof. rewrite !String.eqb_eq. congruence. Qed.


Lemma Qlt_bool_true (x y : Q) : Qlt_bool x y = true -> (x < y)%Q.
Proof.
  unfold Qlt_bool. intros H. apply Qnot_le_lt. intros L.
  apply Qle_bool_iff in L. rewrite L in H. discriminate.
Qed.

Lemma Qlt_bool_false (x y : Q) : Qlt_bool x y = false -> (y <= x)%Q.
Proof.
  unfold Qlt_bool. intros H. apply Qle_bool_iff.
  now destruct (Qle_bool y x).
Qed.

(** ** Aggregation queries *)

Lemma subject_groups_In (db : Database) (r : SubjectPerformance.row) :
  In r (subject_groups db) ->
  let ss := sessions_on_subject (SubjectPerformance.subject r) db in
  ss <> [] /\
  SubjectPerformance.session_count r = Sql.COUNT ss /\
  SubjectPerformance.avg_focus r = Sql.mean (map SessionRow.focus_rating ss) /\
  SubjectPerformance.total_minutes r = Sql.total (map SessionRow.duration ss).
Proof.
  unfold subject_groups. rewrite in_map_iff. intros [g [<- Hg]].
  apply (group_by_In String.eqb String.eqb_refl) in Hg.
  destruct Hg as [Eg [_ Hne]]. simpl. unfold sessions_on_subject.
  rewrite <- Eg. repeat split; [exact Hne|].
  unfold Sql.COUNT. now rewrite length_map.
Qed.

Lemma subject_groups_subjects (db : Database) :
  map SubjectPerformance.subject (subject_groups db)
  = Sql.distinct String.eqb (map SessionRow.subject (study_sessions db)).
Proof.
  unfold subject_groups. rewrite map_map. simpl.
  apply (group_by_keys String.eqb).
Qed.

Lemma subject_performance_sorted (db : Database) :
  StronglySorted
    (fun a b => (SubjectPerformance.avg_focus b
                 <= SubjectPerformance.avg_focus a)%Q)
    (select_subject_performance db).
Proof.
  unfold select_subject_performance. apply order_by_sorted.
  - intros a b c Hab Hbc.
    now apply Qle_trans with (SubjectPerformance.avg_focus b).
  - intros y x H. apply Qlt_bool_true in H. now apply Qlt_le_weak.
  - intros y x H. now apply Qlt_bool_false in H.
Qed.

(** The last element of a sorted list is below every element. *)
Lemma last_of_sorted {A : Type} (R : A -> A -> Prop) (l : list A) (d : A) :
  (forall a, R a a) -> StronglySorted R l ->
  forall r, In r l -> R r (last l d).
Proof.
  intros Rrefl Hs. induction Hs as [|x l' Hl' IH Hx]; intros r Hr.
  - destruct Hr.
  - destruct l' as [|y l''].
    + destruct Hr as [<-|[]]. apply Rrefl.
    + change (last (x :: y :: l'') d) with (last (y :: l'') d).
      destruct Hr as [<-|Hr]; [|now apply IH].
      rewrite Forall_forall in Hx. apply Hx.
      clear. revert y. induction l'' as [|z t IHt]; intros y; [now left|].
      right. apply IHt.
Qed.

(** C9. [subjectPerformanceSummary()]: every returned row is the summary
    (mean focus rating, session count, total minutes) of the sessions of its
    subject, which number at least 2; no subject is returned twice; every
    subject that has at least 2 sessions is returned; and the rows are in
    descending order of mean focus rating. *)
Theorem subject_performance_summary (db : Database) :
  let rows := select_subject_performance db in
  (forall r, In r rows ->
     let ss := sessions_on_subject (SubjectPerformance.subject r) db in
     2 <= SubjectPerformance.session_count r /\
     SubjectPerformance.session_count r = Sql.COUNT ss /\
     SubjectPerformance.avg_focus r
       = Sql.mean (map SessionRow.focus_rating ss) /\
     SubjectPerformance.total_minutes r
       = Sql.total (map SessionRow.duration ss)) /\
  NoDup (map SubjectPerformance.subject rows) /\
  (forall s, In s (study_sessions db) ->
     2 <= Sql.COUNT (sessions_on_subject (SessionRow.subject s) db) ->
     In (SessionRow.subject s) (map SubjectPerformance.subject rows)) /\
  StronglySorted
    (fun a b => (SubjectPerformance.avg_focus b
                 <= SubjectPerformance.avg_focus a)%Q) rows.
Proof.
  unfold select_subject_performance. cbv zeta.
  split; [|split; [|split]].
  - intros r Hr. apply order_by_In, filter_In in Hr. destruct Hr as [Hr H2].
    apply Z.leb_le in H2. apply subject_groups_In in Hr.
    destruct Hr as [_ Hr]. now split.
  - apply order_by_NoDup, NoDup_map_filter.
    rewrite subject_groups_subjects.
    apply distinct_NoDup, String.eqb_refl.
  - intros s Hs Hcount.
    assert (In (SessionRow.subject s)
              (map SubjectPerformance.subject (subject_groups db))) as Hin.
    { rewrite subject_groups_subjects.
      destruct (distinct_covers String.eqb String.eqb_refl string_eqb_trans
                  (SessionRow.subject s)
                  (map SessionRow.subject (study_sessions db))) as [k [Hk E]].
      - now apply in_map.
      - apply String.eqb_eq in E. now subst k. }
    apply in_map_iff in Hin. destruct Hin as [r [Er Hr]].
    apply in_map_iff. exists r. split; [exact Er|].
    apply order_by_In, filter_In. split; [exact Hr|].
    apply Z.leb_le. apply subject_groups_In in Hr.
    destruct Hr as [_ [-> _]]. now rewrite Er.
  - apply subject_performance_sorted.
Qed.

Lemma correlation_key_eqb_refl (k : Q * Z) : correlation_key_eqb k k = true.
Proof.
  unfold correlation_key_eqb. now rewrite Qeq_bool_refl, Z.eqb_refl.
Qed.

Lemma correlation_key_eqb_iff (k k' : Q * Z) :
  correlation_key_eqb k k' = true <-> (fst k == fst k')%Q /\ snd k = snd k'.
Proof.
  unfold correlation_key_eqb.
  now rewrite andb_true_iff, Qeq_bool_iff, Z.eqb_eq.
Qed.

Lemma correlation_key_eqb_trans (a b c : Q * Z) :
  correlation_key_eqb a b = true -> correlation_key_eqb b c = true ->
  correlation_key_eqb a c = true.
Proof.
  rewrite !correlation_key_eqb_iff. intros [H1 H2] [H3 H4]. split.
  - now rewrite H1. 
  - congruence.
Qed.

Lemma correlation_key_eqb_sym (a b : Q * Z) :
  correlation_key_eqb a b = correlation_key_eqb b a.
Proof.
  destruct (correlation_key_eqb a b) eqn:E, (correlation_key_eqb b a) eqn:E';
    try reflexivity.
  - apply correlation_key_eqb_iff in E. destruct E as [H1 H2].
    assert (correlation_key_eqb b a = true) as T.
    { apply correlation_key_eqb_iff. split; [now symmetry | congruence]. }
    congruence.
  - apply correlation_key_eqb_iff in E'. destruct E' as [H1 H2].
    assert (correlation_key_eqb a b = true) as T.
    { apply correlation_key_eqb_iff. split; [now symmetry | congruence]. }
    congruence.
Qed.

Lemma correlation_key_eqb_same_group (a b c : Q * Z) :
  correlation_key_eqb a b = true ->
  correlation_key_eqb a c = correlation_key_eqb b c.
Proof.
  intros E.
  destruct (correlation_key_eqb b c) eqn:Ebc.
  - now apply correlation_key_eqb_trans with b.
  - destruct (correlation_key_eqb a c) eqn:Eac; [|reflexivity].
    rewrite correlation_key_eqb_sym in E.
    rewrite (correlation_key_eqb_trans b a c E Eac) in Ebc. discriminate.
Qed.

Lemma ForallOrdPairs_filter {A : Type} (R : A -> A -> Prop) (p : A -> bool)
  (l : list A) :
  ForallOrdPairs R l -> ForallOrdPairs R (filter p l).
Proof.
  induction 1 as [|a l Ha Hl IH]; simpl; [constructor|].
  destruct (p a); [|exact IH]. constructor; [|exact IH].
  rewrite Forall_forall in Ha |- *. intros x Hx. apply filter_In in Hx.
  now apply Ha.
Qed.

Lemma ForallOrdPairs_map {A B : Type} (R : B -> B -> Prop) (f : A -> B)
  (l : list A) :
  ForallOrdPairs (fun a b => R (f a) (f b)) l -> ForallOrdPairs R (map f l).
Proof.
  induction 1 as [|a l Ha Hl IH]; simpl; constructor; [|exact IH].
  rewrite Forall_forall in Ha |- *. intros x Hx. apply in_map_iff in Hx.
  destruct Hx as [y [<- Hy]]. now apply Ha.
Qed.

Lemma sql_eq_true (a b : option string) :
  sql_eq a b = true <-> exists d, a = Some d /\ b = Some d.
Proof.
  destruct a as [x|], b as [y|]; simpl; split;
    try discriminate; try (intros [d [? ?]]; discriminate).
  - intros E. apply String.eqb_eq in E. subst. now exists y.
  - intros [d [E1 E2]]. apply String.eqb_eq. congruence.
Qed.

Section Correlation.
Variable sqlite_DATE : string -> option string.

Lemma wellness_join_sessions_In (db : Database) (w : WellnessRow.t)
  (s : SessionRow.t) :
  In (w, s) (wellness_join_sessions sqlite_DATE db) <->
  In w (wellness_tracking db) /\ In s (study_sessions db) /\
  exists d, sqlite_DATE (WellnessRow.date w) = Some d /\
            sqlite_DATE (SessionRow.created_at s) = Some d.
Proof.
  unfold wellness_join_sessions. rewrite in_flat_map. split.
  - intros [w' [Hw' H]]. apply in_map_iff in H. destruct H as [s' [E Hs']].
    injection E as -> ->. apply filter_In in Hs'. destruct Hs' as [Hs' D].
    apply sql_eq_true in D. tauto.
  - intros [Hw [Hs D]]. exists w. split; [exact Hw|].
    apply in_map_iff. exists s. split; [reflexivity|].
    apply filter_In. split; [exact Hs | now apply sql_eq_true].
Qed.

(** C2, as amended.  [sleepFocusCorrelation()] joins every wellness entry
    with every study session of the same calendar date and groups the joined
    rows by the pair (sleep_hours, stress_level), not by date: every returned
    row carries the mean focus rating of the joined rows of its pair, which
    number at least 2; every pair with at least 2 joined rows is returned;
    and no pair is returned twice. *)
Theorem sleep_focus_correlation_groups (db : Database) :
  let rows := select_wellness_study_correlation sqlite_DATE db in
  (forall w s,
     In (w, s) (wellness_join_sessions sqlite_DATE db) <->
     In w (wellness_tracking db) /\ In s (study_sessions db) /\
     exists d, sqlite_DATE (WellnessRow.date w) = Some d /\
               sqlite_DATE (SessionRow.created_at s) = Some d) /\
  (forall r, In r rows ->
     let g := correlation_group sqlite_DATE
                (WellnessCorrelation.sleep_hours r)
                (WellnessCorrelation.stress_level r) db in
     2 <= Sql.COUNT g /\
     WellnessCorrelation.avg_focus r
       = Sql.mean (map (fun p => SessionRow.focus_rating (snd p)) g)) /\
  (forall p, In p (wellness_join_sessions sqlite_DATE db) ->
     2 <= Sql.COUNT (correlation_group sqlite_DATE
                       (WellnessRow.sleep_hours (fst p))
                       (WellnessRow.stress_level (fst p)) db) ->
     exists r, In r rows /\
       (WellnessCorrelation.sleep_hours r == WellnessRow.sleep_hours (fst p))%Q
       /\ WellnessCorrelation.stress_level r
          = WellnessRow.stress_level (fst p)) /\
  ForallOrdPairs
    (fun a b => correlation_key_eqb (correlation_row_key a)
                                    (correlation_row_key b) = false) rows.
Proof.
  cbv zeta. split; [intros w s; apply wellness_join_sessions_In|].
  unfold select_wellness_study_correlation. split; [|split].
  - intros r Hr. apply in_map_iff in Hr. destruct Hr as [[[q z] l] [<- Hg]].
    apply filter_In in Hg. destruct Hg as [Hg Hc]. simpl in *.
    apply (group_by_In correlation_key_eqb correlation_key_eqb_refl) in Hg.
    destruct Hg as [El _]. simpl in El. unfold correlation_group.
    rewrite <- El. split; [now apply Z.leb_le | reflexivity].
  - intros p Hp Hc.
    destruct (distinct_covers correlation_key_eqb correlation_key_eqb_refl
                correlation_key_eqb_trans (correlation_key p)
                (map correlation_key (wellness_join_sessions sqlite_DATE db)))
      as [[q z] [Hk E]]; [now apply in_map|].
    set (g := filter (fun r => correlation_key_eqb (q, z) (correlation_key r))
                     (wellness_join_sessions sqlite_DATE db)).
    exists (WellnessCorrelation.mk q z
              (Sql.mean (map (fun p => SessionRow.focus_rating (snd p)) g))).
    pose proof E as E'. apply correlation_key_eqb_iff in E'. simpl in E'.
    split; [|exact E'].
    apply in_map_iff. exists ((q, z), g). split; [reflexivity|].
    apply filter_In. split.
    + unfold Sql.group_by. apply in_map_iff. exists (q, z). now split.
    + simpl. apply Z.leb_le. unfold correlation_group in Hc.
      replace g with
        (filter (fun p0 => correlation_key_eqb
                             (WellnessRow.sleep_hours (fst p),
                              WellnessRow.stress_level (fst p))
                             (correlation_key p0))
                (wellness_join_sessions sqlite_DATE db)); [exact Hc|].
      unfold g. apply filter_ext. intros x. symmetry.
      now apply correlation_key_eqb_same_group.
  - apply ForallOrdPairs_map, ForallOrdPairs_filter.
    unfold Sql.group_by. apply ForallOrdPairs_map. simpl.
    apply (distinct_apart correlation_key_eqb).
Qed.
End Correlation.

(** ** The Pattern Analysis Engine *)

Lemma findings_of_type_app (t : string) (l l' : list Finding) :
  findings_of_type t (l ++ l')
  = (findings_of_type t l ++ findings_of_type t l')%list.
Proof. apply filter_app. Qed.

Lemma analyze_subjects_app (sp : list SubjectPerformance.row)
  (l : list Finding) :
  analyze_subjects sp l = (l ++ analyze_subjects sp [])%list.
Proof.
  unfold analyze_subjects, append. destruct sp as [|r sp'].
  - now rewrite app_nil_r.
  - destruct (1 <? len (r :: sp')); [|reflexivity].
    destruct (Qlt_bool _ 3); [|reflexivity].
    now rewrite <- app_assoc.
Qed.

Lemma analyze_wellness_app (wc : list WellnessCorrelation.row)
  (l : list Finding) :
  analyze_wellness wc l = (l ++ analyze_wellness wc [])%list.
Proof.
  unfold analyze_wellness, append. destruct wc as [|r wc'].
  - now rewrite app_nil_r.
  - destruct (filter _ (r :: wc')); [now rewrite app_nil_r | reflexivity].
Qed.

Lemma rule_findings_split (fd : list FocusData.row)
  (sp : list SubjectPerformance.row) (wc : list WellnessCorrelation.row) :
  rule_findings fd sp wc
  = (analyze_focus fd [] ++ analyze_subjects sp [] ++ analyze_wellness wc [])%list.
Proof.
  unfold rule_findings.
  rewrite analyze_wellness_app, analyze_subjects_app. now rewrite app_assoc.
Qed.

(** What each rule contributes, by category. *)
Lemma analyze_focus_alone (fd : list FocusData.row) :
  analyze_focus fd []
  = match filter (fun row => 4 <=? FocusData.focus_rating row) fd with
    | [] => []
    | high =>
      [high_focus_finding
         (sum (map FocusData.avg_duration high) / inject_Z (len high))%Q]
    end.
Proof.
  unfold analyze_focus, append. destruct fd as [|r fd']; [reflexivity|].
  now destruct (filter _ (r :: fd')).
Qed.

Lemma analyze_focus_types (t : string) (fd : list FocusData.row) :
  String.eqb "positive" t = false ->
  findings_of_type t (analyze_focus fd []) = [].
Proof.
  intros H. rewrite analyze_focus_alone. destruct (filter _ fd); [reflexivity|].
  unfold findings_of_type. cbn [filter type high_focus_finding].
  now rewrite H.
Qed.

Lemma analyze_wellness_types (t : string) (wc : list WellnessCorrelation.row) :
  String.eqb "insight" t = false ->
  findings_of_type t (analyze_wellness wc []) = [].
Proof.
  intros H. unfold analyze_wellness, append. destruct wc as [|r wc']; [reflexivity|].
  destruct (filter _ (r :: wc')); [reflexivity|].
  unfold findings_of_type. cbn [filter type sleep_focus_finding app].
  now rewrite H.
Qed.


Lemma analyze_subjects_info (sp : list SubjectPerformance.row) :
  findings_of_type "info" (analyze_subjects sp []) = [].
Proof.
  unfold analyze_subjects, append. destruct sp as [|r sp']; [reflexivity|].
  destruct (1 <? len (r :: sp')); [|reflexivity].
  now destruct (Qlt_bool _ 3).
Qed.

Lemma last_default {A : Type} (l : list A) (x d d' : A) :
  last (x :: l) d = last (x :: l) d'.
Proof.
  revert x. induction l as [|y r IH]; intros x; [reflexivity|].
  change (last (y :: r) d = last (y :: r) d'). apply IH.
Qed.

Lemma analyze_subjects_warning (sp : list SubjectPerformance.row)
  (d : SubjectPerformance.row) :
  findings_of_type "warning" (analyze_subjects sp [])
  = if (1 <? len sp) && Qlt_bool (SubjectPerformance.avg_focus (last sp d)) 3
    then [needs_attention_finding (last sp d)] else [].
Proof.
  unfold analyze_subjects, append. destruct sp as [|r sp']; [reflexivity|].
  rewrite (last_default sp' r r d).
  destruct (1 <? len (r :: sp')); [|reflexivity].
  now destruct (Qlt_bool _ 3).
Qed.

Lemma analyze_fallback_types (t : string) (l : list Finding) :
  String.eqb "info" t = false ->
  findings_of_type t (analyze_fallback l) = findings_of_type t l.
Proof.
  intros H. destruct l as [|f l']; [|reflexivity].
  unfold analyze_fallback, append, findings_of_type.
  cbn [filter type getting_started_finding app]. now rewrite H.
Qed.

Section Engine.
Variable sqlite_DATE : string -> option string.

(** The handler of [/patterns] renders [patterns_of] when the store does
    not fail. *)
Lemma patterns_renders (w : World Database) :
  first_fault (fault w) patterns_actions = None ->
  patterns sqlite_DATE w
  = (Ok (render_patterns "Pattern Analysis"
           (patterns_of sqlite_DATE (tables w))), w).
Proof.
  simpl. intros H.
  destruct (fault w Connect) eqn:E0; [discriminate|].
  destruct (fault w (Execute SelectFocusData)) eqn:E1; [discriminate|].
  destruct (fault w (Execute SelectSubjectPerformance)) eqn:E2; [discriminate|].
  destruct (fault w (Execute SelectWellnessStudyCorrelation)) eqn:E3;
    [discriminate|].
  unfold patterns, get_db_connection, execute, close, bind, db_guard, ret.
  now rewrite E0, E1, E2, E3.
Qed.

Lemma patterns_of_warning (db : Database) (d : SubjectPerformance.row) :
  findings_of_type "warning" (patterns_of sqlite_DATE db)
  = let sp := select_subject_performance db in
    if (1 <? len sp) && Qlt_bool (SubjectPerformance.avg_focus (last sp d)) 3
    then [needs_attention_finding (last sp d)] else [].
Proof.
  unfold patterns_of, analyze.
  rewrite analyze_fallback_types by reflexivity.
  rewrite rule_findings_split, !findings_of_type_app.
  rewrite analyze_focus_types, analyze_wellness_types by reflexivity.
  rewrite app_nil_r. simpl app. apply analyze_subjects_warning.
Qed.

(** C6. The struggling-subject "warning" finding is emitted if and only if
    more than one subject qualifies (is a row of the subject summary, that
    is, has at least 2 sessions) and the mean focus rating of the last row
    is below 3; when emitted it is the one finding naming that last subject;
    it is never emitted when exactly one subject qualifies; and the last row
    is lowest-ranked: no qualifying subject has a smaller mean. *)
Theorem struggling_subject_warning (db : Database)
  (d : SubjectPerformance.row) :
  let sp := select_subject_performance db in
  let fired := findings_of_type "warning" (patterns_of sqlite_DATE db) in
  (fired <> [] <->
     1 < len sp /\ (SubjectPerformance.avg_focus (last sp d) < 3)%Q) /\
  (fired <> [] -> fired = [needs_attention_finding (last sp d)]) /\
  (len sp = 1 -> fired = []) /\
  (forall r, In r sp ->
     (SubjectPerformance.avg_focus (last sp d)
      <= SubjectPerformance.avg_focus r)%Q).
Proof.
  cbv zeta.
  assert (forall r, In r (select_subject_performance db) ->
            (SubjectPerformance.avg_focus
               (last (select_subject_performance db) d)
             <= SubjectPerformance.avg_focus r)%Q) as Hlow.
  { apply (last_of_sorted
             (fun a b => (SubjectPerformance.avg_focus b
                          <= SubjectPerformance.avg_focus a)%Q)).
    - intros a. apply Qle_refl.
    - apply subject_performance_sorted. }
  rewrite (patterns_of_warning db d). cbv zeta.
  destruct (1 <? len (select_subject_performance db)) eqn:E1; simpl.
  - apply Z.ltb_lt in E1.
    destruct (Qlt_bool _ 3) eqn:E2.
    + apply Qlt_bool_true in E2.
      split; [|split; [|split]];
        [split; [now split | discriminate] | reflexivity | lia | exact Hlow].
    + apply Qlt_bool_false in E2.
      split; [|split; [|split]]; [split | congruence | reflexivity | exact Hlow].
      * congruence.
      * intros [_ H]. exfalso. now apply (Qlt_not_le _ _ H).
  - apply Z.ltb_ge in E1.
    split; [|split; [|split]]; [split | congruence | reflexivity | exact Hlow].
    + congruence.
    + lia.
Qed.

Lemma wellness_join_no_sessions (db : Database) :
  study_sessions db = [] -> wellness_join_sessions sqlite_DATE db = [].
Proof.
  unfold wellness_join_sessions. intros ->.
  induction (wellness_tracking db) as [|w r IH]; [reflexivity | exact IH].
Qed.

Lemma rule_findings_info (fd : list FocusData.row)
  (sp : list SubjectPerformance.row) (wc : list WellnessCorrelation.row) :
  findings_of_type "info" (rule_findings fd sp wc) = [].
Proof.
  rewrite rule_findings_split, !findings_of_type_app.
  rewrite analyze_focus_types, analyze_wellness_types by reflexivity.
  now rewrite analyze_subjects_info.
Qed.

(** C7. On a database without records the engine yields exactly one
    finding, of category "info", and so does the [/patterns] handler; the
    same holds as soon as there is no study session.  In general the
    fallback finding is emitted exactly when the four rules produced
    nothing, and then it is the whole list; otherwise the list is what the
    rules produced. *)
Theorem fallback_finding :
  patterns_of sqlite_DATE empty_db = [getting_started_finding] /\
  type getting_started_finding = "info" /\
  (forall w : World Database,
     tables w = empty_db -> (forall a, fault w a = None) ->
     fst (patterns sqlite_DATE w)
     = Ok (render_patterns "Pattern Analysis" [getting_started_finding])) /\
  (forall db, study_sessions db = [] ->
     patterns_of sqlite_DATE db = [getting_started_finding]) /\
  (forall fd sp wc,
     (rule_findings fd sp wc = [] ->
      analyze fd sp wc = [getting_started_finding]) /\
     (rule_findings fd sp wc <> [] ->
      analyze fd sp wc = rule_findings fd sp wc) /\
     (findings_of_type "info" (analyze fd sp wc) <> [] <->
      rule_findings fd sp wc = [])).
Proof.
  split; [reflexivity|]. split; [reflexivity|]. split; [|split].
  - intros w Hw Hf. rewrite patterns_renders.
    + simpl. now rewrite Hw.
    + simpl. now rewrite !Hf.
  - intros db H. unfold patterns_of, select_wellness_study_correlation,
      select_subject_performance, subject_groups, select_focus_data.
    rewrite wellness_join_no_sessions by exact H. now rewrite H.
  - intros fd sp wc. unfold analyze.
    destruct (rule_findings fd sp wc) as [|f l] eqn:E.
    + repeat split; try easy.
    + repeat split; try easy.
      intros H. exfalso. apply H. simpl analyze_fallback.
      rewrite <- E. apply rule_findings_info.
Qed.






End Engine.

(** ** The derived attribute of [PerformanceRecord] *)

(** C10. [percentage] divides by [max_score] without a guard: on a record
    whose [max_score] is zero it raises [ZeroDivisionError] and returns no
    value; on any other record it returns the rounded percentage.  Records
    with [max_score] zero exist: the column only has to be a non-null
    number. *)
Theorem percentage_unguarded_division (self : models.PerformanceRecord.t) :
  ((models.PerformanceRecord.max_score self == 0)%Q ->
   models.PerformanceRecord.percentage self
   = Raise (ZeroDivisionError "float division by zero")) /\
  (~ (models.PerformanceRecord.max_score self == 0)%Q ->
   models.PerformanceRecord.percentage self
   = Ok (round1 (models.PerformanceRecord.score self
                 / models.PerformanceRecord.max_score self * 100))) /\
  (exists r : models.PerformanceRecord.t,
     models.PerformanceRecord.max_score r = 0%Q /\
     models.PerformanceRecord.score r = 0%Q /\
     models.PerformanceRecord.percentage r
     = Raise (ZeroDivisionError "float division by zero")).
Proof.
  unfold models.PerformanceRecord.percentage, truediv. split; [|split].
  - intros H. apply Qeq_bool_iff in H. now rewrite H.
  - intros H. destruct (Qeq_bool _ 0) eqn:E; [|reflexivity].
    apply Qeq_bool_iff in E. contradiction.
  - exists (models.PerformanceRecord.mk 1 1 "Math" "quiz" 0 0 "2024-03-01"
              None "2024-03-01 10:00:00").
    repeat split.
Qed.

(** ** The Insight Narrative Generator *)

Lemma contains_fallback (detail : string) : contains (fallback detail) detail.
Proof.
  exists Template.fallback_head, Template.fallback_tail. reflexivity.
Qed.

Lemma first_fault_insight (fault : db_action -> option string) :
  first_fault fault insight_actions
  = match fault Connect with
    | Some m => Some m
    | None =>
      match fault (Execute SelectStudyData) with
      | Some m => Some m
      | None =>
        match fault (Execute SelectPerformanceData) with
        | Some m => Some m
        | None =>
          match fault (Execute SelectWellnessData) with
          | Some m => Some m
          | None => fault (Execute SelectStats)
          end
        end
      end
    end.
Proof.
  simpl. now destruct (fault (Execute SelectStats)).
Qed.

Section Insights.
Variable sqlite_DATE : string -> option string.
Variable sqlite_TIME : string -> option string.
Variable json_dumps : json -> string.

Local Notation "'insights'" :=
  (get_ai_insights sqlite_DATE sqlite_TIME json_dumps).
Local Notation "'prompt'" := (prompt_of sqlite_DATE sqlite_TIME json_dumps).
Local Notation "'study_data'" := (select_study_data sqlite_DATE sqlite_TIME).

(** [study_data] holds the 20 most recent sessions at most. *)
Lemma len_study_data (db : Database) :
  len (study_data db) = Z.min 20 (len (study_sessions db)).
Proof.
  unfold select_study_data, len, Sql.limit.
  rewrite length_map, length_firstn, order_by_length. lia.
Qed.

(** Every path of [get_ai_insights] with a configured service. *)
Lemma get_ai_insights_configured (svc : Service) (w : World Database) :
  insights (Some svc) w
  = match first_fault (fault w) insight_actions with
    | Some msg =>
      (Ok (fallback msg), with_line w ("AI Analysis Error: " ++ msg))
    | None =>
      if len (study_data (tables w)) <? 3 then
        (Ok (getting_started (len (study_data (tables w)))), w)
      else
        let p := prompt (tables w) in
        match svc (service_log w) p with
        | Ok text => (Ok text, with_prompt w p)
        | Raise e =>
          (Ok (fallback (str e)),
           with_line (with_prompt w p) ("AI Analysis Error: " ++ str e))
        end
    end.
Proof.
  rewrite first_fault_insight.
  unfold get_ai_insights, try_except, bind,
    get_db_connection, execute, close, db_guard, ret, print.
  destruct (fault w Connect); [reflexivity|].
  destruct (fault w (Execute SelectStudyData)); [reflexivity|].
  destruct (fault w (Execute SelectPerformanceData)); [reflexivity|].
  destruct (fault w (Execute SelectWellnessData)); [reflexivity|].
  destruct (fault w (Execute SelectStats)); [reflexivity|].
  cbn [pending].
  destruct (len (study_data (tables w)) <? 3); [reflexivity|].
  unfold generate_content. fold (prompt (tables w)).
  now destruct (svc (service_log w) (prompt (tables w))).
Qed.

(** [get_ai_insights] never raises and leaves tables and faults alone. *)
Lemma get_ai_insights_returns (model : option Service) (w : World Database) :
  exists text w',
    insights model w = (Ok text, w') /\
    tables w' = tables w /\ fault w' = fault w.
Proof.
  destruct model as [svc|].
  - rewrite get_ai_insights_configured.
    destruct (first_fault (fault w) insight_actions);
      [eexists; eexists; repeat split|].
    destruct (len _ <? 3); [eexists; eexists; repeat split|]. cbv zeta.
    destruct (svc _ _); eexists; eexists; repeat split.
  - now exists Template.unavailable, w.
Qed.

(** C1, as amended.  With fewer than 3 study sessions in the database,
    [get_ai_insights] never submits anything to the text-generation service,
    whatever the configuration and whatever the store does.  When the
    service is configured and the reads succeed, it returns the
    getting-started text, which depends on the number of sessions only.
    When no credential is configured it returns the "unavailable" text
    instead. *)
Theorem getting_started_gate (model : option Service) (w : World Database) :
  len (study_sessions (tables w)) < 3 ->
  service_log (snd (insights model w)) = service_log w /\
  (model <> None -> first_fault (fault w) insight_actions = None ->
   fst (insights model w)
   = Ok (getting_started (len (study_sessions (tables w))))) /\
  (model = None -> fst (insights model w) = Ok Template.unavailable).
Proof.
  intros Hlt.
  assert (len (study_data (tables w)) = len (study_sessions (tables w))) as El.
  { rewrite len_study_data. lia. }
  destruct model as [svc|].
  - rewrite get_ai_insights_configured, El.
    assert ((len (study_sessions (tables w)) <? 3) = true) as Eb
      by now apply Z.ltb_lt.
    rewrite Eb. split; [|split].
    + now destruct (first_fault (fault w) insight_actions).
    + intros _ H. now rewrite H.
    + discriminate.
  - split; [reflexivity|]. split; [congruence | reflexivity].
Qed.

(** C4.  When the configured service raises on the prompt that
    [get_ai_insights] submits, the exception is caught: the function returns
    the fallback text, which contains the error detail [str(e)], after one
    submission.  No call of [get_ai_insights], whatever the service and the
    store do, ends in an exception. *)
Theorem service_failure_absorbed (svc : Service) (w : World Database)
  (e : exn) :
  first_fault (fault w) insight_actions = None ->
  3 <= len (study_sessions (tables w)) ->
  svc (service_log w) (prompt (tables w)) = Raise e ->
  fst (insights (Some svc) w) = Ok (fallback (str e)) /\
  contains (fallback (str e)) (str e) /\
  service_log (snd (insights (Some svc) w))
  = (service_log w ++ [prompt (tables w)])%list /\
  (forall model' w', exists text, fst (insights model' w') = Ok text).
Proof.
  intros Hf Hlen Hsvc.
  rewrite get_ai_insights_configured, Hf, len_study_data.
  assert ((Z.min 20 (len (study_sessions (tables w))) <? 3) = false) as Eb
    by (apply Z.ltb_ge; lia).
  rewrite Eb. cbv zeta. rewrite Hsvc.
  split; [reflexivity|]. split; [apply contains_fallback|].
  split; [reflexivity|].
  intros model' w'.
  destruct (get_ai_insights_returns model' w') as [text [w'' [E _]]].
  exists text. now rewrite E.
Qed.

Lemma patterns_raises (w : World Database) (msg : string) :
  first_fault (fault w) patterns_actions = Some msg ->
  patterns sqlite_DATE w = (Raise (DataStoreError msg), w).
Proof.
  simpl.
  unfold patterns, get_db_connection, execute, close, bind, db_guard, ret.
  destruct (fault w Connect); [congruence|].
  destruct (fault w (Execute SelectFocusData)); [congruence|].
  destruct (fault w (Execute SelectSubjectPerformance)); [congruence|].
  destruct (fault w (Execute SelectWellnessStudyCorrelation));
    [congruence | discriminate].
Qed.

Lemma dashboard_raises (w : World Database) (msg : string) :
  first_fault (fault w) dashboard_actions = Some msg ->
  dashboard w = (Raise (DataStoreError msg), w).
Proof.
  simpl.
  unfold dashboard, get_db_connection, execute, close, bind, db_guard, ret.
  destruct (fault w Connect); [congruence|].
  destruct (fault w (Execute SelectRecentSessions)); [congruence|].
  destruct (fault w (Execute CountStudySessions)); [congruence|].
  destruct (fault w (Execute SumDuration)); [congruence|].
  destruct (fault w (Execute AvgFocusRating)); [congruence | discriminate].
Qed.

Lemma delete_study_session_raises (session_id : Z) (w : World Database)
  (msg : string) :
  first_fault (fault w) delete_actions = Some msg ->
  delete_study_session session_id w = (Raise (DataStoreError msg), w).
Proof.
  simpl.
  unfold delete_study_session, get_db_connection, execute_update, commit,
    close, bind, db_guard, ret.
  destruct (fault w Connect); [congruence|].
  destruct (fault w (Execute DeleteStudySession)); [congruence|].
  destruct (fault w Commit); [congruence | discriminate].
Qed.

Lemma ai_insights_raises (model : option Service) (w : World Database)
  (msg : string) :
  first_fault (fault w) count_actions = Some msg ->
  fst (ai_insights sqlite_DATE sqlite_TIME json_dumps model w)
  = Raise (DataStoreError msg).
Proof.
  simpl. intros H. unfold ai_insights, bind at 1 2. unfold print at 1.
  destruct (get_ai_insights_returns model
              (with_line w "🤖 Generating AI insights..."))
    as [text [w' [E [_ Ef]]]].
  rewrite E. simpl in Ef.
  unfold get_db_connection, execute, close, bind, db_guard, ret.
  rewrite Ef. revert H.
  destruct (fault w Connect); simpl; [congruence|]. rewrite Ef.
  destruct (fault w (Execute CountStudySessions)); simpl; [congruence|].
  rewrite Ef.
  destruct (fault w (Execute CountPerformanceRecords)); simpl; [congruence|].
  rewrite Ef.
  destruct (fault w (Execute CountWellnessTracking)); simpl;
    [congruence | discriminate].
Qed.

(** C5, as amended.  A failure of the data store propagates unchanged, and
    without any change to the tables, from the handlers that read or write
    the store directly: [/patterns], [/dashboard], [/delete-study-session]
    and the counts of [/ai-insights].  Inside [get_ai_insights] it does not
    propagate: with a configured service a failure of any of its reads is
    caught and turned into the fallback text carrying the store's message,
    before anything is submitted to the service; with no service configured
    the store is not read at all. *)
Theorem data_store_failure_policy (w : World Database) (msg : string) :
  (first_fault (fault w) patterns_actions = Some msg ->
   patterns sqlite_DATE w = (Raise (DataStoreError msg), w)) /\
  (first_fault (fault w) dashboard_actions = Some msg ->
   dashboard w = (Raise (DataStoreError msg), w)) /\
  (forall session_id,
     first_fault (fault w) delete_actions = Some msg ->
     delete_study_session session_id w = (Raise (DataStoreError msg), w)) /\
  (forall model,
     first_fault (fault w) count_actions = Some msg ->
     fst (ai_insights sqlite_DATE sqlite_TIME json_dumps model w)
     = Raise (DataStoreError msg)) /\
  (forall svc,
     first_fault (fault w) insight_actions = Some msg ->
     fst (insights (Some svc) w) = Ok (fallback msg) /\
     contains (fallback msg) msg /\
     service_log (snd (insights (Some svc) w)) = service_log w) /\
  insights None w = (Ok Template.unavailable, w).
Proof.
  split; [apply patterns_raises|]. split; [apply dashboard_raises|].
  split; [intros; now apply delete_study_session_raises|].
  split; [intros; now apply ai_insights_raises|].
  split; [|reflexivity].
  intros svc H. rewrite get_ai_insights_configured, H.
  split; [reflexivity|]. split; [apply contains_fallback | reflexivity].
Qed.

End Insights.

(** ** The two variants *)

(** In [app_old.py] the handlers that go through [get_db_connection] raise
    [NameError] before they reach the store. *)
Lemma app_old_patterns_raises (sqlite_DATE : string -> option string)
  (w : World Database) :
  AppOld.patterns sqlite_DATE w
  = (Raise (NameError "name 'get_db_connection' is not defined"), w).
Proof. reflexivity. Qed.

Section Variants.
Variable sqlite_DATE : string -> option string.
Variable sqlite_TIME : string -> option string.
Variable json_dumps : json -> string.
Variable strftime_Ymd : string -> string.


Lemma len_recent_sessions_of (uid : Z) (db : models.Tables) :
  len (AppOld.recent_sessions_of 20 uid db)
  = Z.min 20 (len (AppOld.sessions_of uid db)).
Proof.
  unfold AppOld.recent_sessions_of, len, Sql.limit.
  rewrite length_firstn, order_by_length. lia.
Qed.







End Variants.

(** ** Concrete instances *)

Lemma Ok_neq (a b : string) : String.eqb a b = false -> Ok a <> Ok b.
Proof.
  intros H E. injection E as E. apply String.eqb_neq in H. contradiction.
Qed.

(** C1, counterexample.  Two sessions and no credential: the function
    returns the "unavailable" text, not the getting-started text. *)
Lemma getting_started_needs_credential :
  len (study_sessions (tables (Sample.world_of Sample.two_sessions))) = 2 /\
  fst (get_ai_insights iso_DATE iso_TIME opaque_dumps None
         (Sample.world_of Sample.two_sessions))
  = Ok Template.unavailable /\
  fst (get_ai_insights iso_DATE iso_TIME opaque_dumps None
         (Sample.world_of Sample.two_sessions))
  <> Ok (getting_started 2).
Proof.
  split; [reflexivity|]. split; [reflexivity|].
  apply Ok_neq. vm_compute. reflexivity.
Qed.

(** C1, witness: two sessions and a configured service. *)
Lemma getting_started_gate_witness :
  len (study_sessions (tables (Sample.world_of Sample.two_sessions))) < 3 /\
  (service_log
     (snd (get_ai_insights iso_DATE iso_TIME opaque_dumps
             (Some Sample.narrator) (Sample.world_of Sample.two_sessions)))
   = service_log (Sample.world_of Sample.two_sessions) /\
   (Some Sample.narrator <> None ->
    first_fault (fault (Sample.world_of Sample.two_sessions))
      insight_actions = None ->
    fst (get_ai_insights iso_DATE iso_TIME opaque_dumps
           (Some Sample.narrator) (Sample.world_of Sample.two_sessions))
    = Ok (getting_started
            (len (study_sessions
                    (tables (Sample.world_of Sample.two_sessions)))))) /\
   (Some Sample.narrator = None ->
    fst (get_ai_insights iso_DATE iso_TIME opaque_dumps
           (Some Sample.narrator) (Sample.world_of Sample.two_sessions))
    = Ok Template.unavailable)).
Proof.
  split; [reflexivity|].
  apply (getting_started_gate iso_DATE iso_TIME opaque_dumps
           (Some Sample.narrator) (Sample.world_of Sample.two_sessions)).
  reflexivity.
Defined.

(** C2, counterexample.  Two days with equal sleep and stress and one
    session each: the query returns one row whose group spans both dates,
    although no date has two joined rows; grouped by date nothing would be
    returned. *)
Lemma correlation_not_grouped_by_date :
  select_wellness_study_correlation iso_DATE Sample.two_days
  = [WellnessCorrelation.mk 8 2 (8 # 2)] /\
  map (fun p => iso_DATE (WellnessRow.date (fst p)))
      (correlation_group iso_DATE 8 2 Sample.two_days)
  = [Some "2024-03-01"; Some "2024-03-02"] /\
  sleep_focus_correlation_by_date iso_DATE Sample.two_days = [] /\
  select_wellness_study_correlation iso_DATE Sample.two_days
  <> sleep_focus_correlation_by_date iso_DATE Sample.two_days.
Proof.
  split; [vm_compute; reflexivity|]. split; [vm_compute; reflexivity|].
  split; [vm_compute; reflexivity|]. vm_compute. discriminate.
Qed.



(** C4, witness: three sessions and a service that fails on its fourth
    prompt. *)
Lemma service_failure_absorbed_witness :
  first_fault (fault Sample.after_three_prompts) insight_actions = None /\
  3 <= len (study_sessions (tables Sample.after_three_prompts)) /\
  Sample.fails_on_fourth (service_log Sample.after_three_prompts)
    (prompt_of iso_DATE iso_TIME opaque_dumps
       (tables Sample.after_three_prompts))
  = Raise (ServiceError "429 Resource has been exhausted") /\
  fst (get_ai_insights iso_DATE iso_TIME opaque_dumps
         (Some Sample.fails_on_fourth) Sample.after_three_prompts)
  = Ok (fallback "429 Resource has been exhausted").
Proof.
  split; [reflexivity|]. split; [discriminate|]. split; [reflexivity|].
  apply (service_failure_absorbed iso_DATE iso_TIME opaque_dumps
           Sample.fails_on_fourth Sample.after_three_prompts
           (ServiceError "429 Resource has been exhausted"));
    [reflexivity | discriminate | reflexivity].
Defined.

(** C5, counterexample.  The store cannot be opened and the service is
    configured: [get_ai_insights] returns the fallback text with the store's
    message; the failure does not reach the handler. *)
Lemma store_failure_absorbed_by_insights :
  first_fault (fault Sample.unreachable) insight_actions
  = Some "unable to open database file" /\
  fst (get_ai_insights iso_DATE iso_TIME opaque_dumps (Some Sample.narrator)
         Sample.unreachable)
  = Ok (fallback "unable to open database file") /\
  fst (get_ai_insights iso_DATE iso_TIME opaque_dumps (Some Sample.narrator)
         Sample.unreachable)
  <> Raise (DataStoreError "unable to open database file").
Proof.
  split; [reflexivity|]. split; [reflexivity | discriminate].
Qed.

(** ** Evaluations *)

Example format_f_examples :
  format_f 0 50 = "50" /\ format_f 0 (5 # 2) = "2" /\
  format_f 0 (7 # 2) = "4" /\ format_f 1 (7 # 2) = "3.5" /\
  format_f 1 (-1 # 25) = "-0.0" /\ format_f 1 (999 # 100) = "10.0".
Proof. repeat split. Qed.

Example two_subjects_findings :
  select_subject_performance Sample.two_subjects
  = [SubjectPerformance.mk "Math" (8 # 2) 2 80;
     SubjectPerformance.mk "History" (4 # 2) 2 60] /\
  map (fun f => (type f, title f, description f))
      (patterns_of iso_DATE Sample.two_subjects)
  = [("positive", "🎯 High Focus Sessions",
      "Your high-focus sessions (4-5 rating) average 40 minutes");
     ("insight", "📚 Top Subject: Math",
      "Average focus rating: 4.0/5 (2 sessions)");
     ("warning", "⚠️ Needs Attention: History",
      "Average focus rating: 2.0/5")].
Proof. split; vm_compute; reflexivity. Qed.

Example delete_then_count :
  let '(r, w) := delete_study_session 1 (Sample.world_of Sample.two_sessions) in
  r = Ok (redirect "dashboard"
            ("Study session deleted successfully!", "success")) /\
  study_sessions (tables w) = [Sample.math2] /\
  shown_total (fst (dashboard w)) = Some 1.
Proof. repeat split. Qed.

Example anonymous_visitor :
  fst (AppOld.dashboard None (Sample.world_of Sample.shared_tables))
  = Ok (redirect "login" ("Please log in to access this page.", "info")) /\
  fst (AppOld.get_ai_insights Sample.strftime_Ymd opaque_dumps
         (Some Sample.narrator) None (Sample.world_of Sample.shared_tables))
  = Ok (fallback "'AnonymousUserMixin' object has no attribute 'id'").
Proof. split; reflexivity. Qed.

(** * Further properties of the code *)

(** ** The findings of [patterns] *)

Section Findings.
Variable sqlite_DATE : string -> option string.

Lemma analyze_subjects_alone (sp : list SubjectPerformance.row)
  (d : SubjectPerformance.row) :
  analyze_subjects sp []
  = match sp with
    | [] => []
    | best :: _ =>
      top_subject_finding best
      :: (if (1 <? len sp)
             && Qlt_bool (SubjectPerformance.avg_focus (last sp d)) 3
          then [needs_attention_finding (last sp d)] else [])
    end.
Proof.
  unfold analyze_subjects, append. destruct sp as [|r sp']; [reflexivity|].
  rewrite (last_default sp' r r d).
  destruct (1 <? len (r :: sp')); [|reflexivity].
  now destruct (Qlt_bool _ 3).
Qed.

Lemma analyze_wellness_alone (wc : list WellnessCorrelation.row) :
  analyze_wellness wc []
  = match filter (fun row => Qle_bool 7 (WellnessCorrelation.sleep_hours row))
                 wc with
    | [] => []
    | high =>
      [sleep_focus_finding
         (sum (map WellnessCorrelation.avg_focus high) / inject_Z (len high))%Q]
    end.
Proof.
  unfold analyze_wellness, append. destruct wc as [|r wc']; [reflexivity|].
  now destruct (filter _ (r :: wc')).
Qed.

Ltac pick_flags :=
  first [ left; reflexivity
        | right; exists true, true, true, true; split; reflexivity
        | right; exists true, true, true, false; split; reflexivity
        | right; exists true, true, false, true; split; reflexivity
        | right; exists true, true, false, false; split; reflexivity
        | right; exists true, false, false, true; split; reflexivity
        | right; exists true, false, false, false; split; reflexivity
        | right; exists false, true, true, true; split; reflexivity
        | right; exists false, true, true, false; split; reflexivity
        | right; exists false, true, false, true; split; reflexivity
        | right; exists false, true, false, false; split; reflexivity
        | right; exists false, false, false, true; split; reflexivity ].

(** X1.  [patterns] hands the template between 1 and 4 findings.  Either
    the list is the single "info" finding, or its categories are, in this
    order, an optional "positive", an optional "insight" that may be
    followed by a "warning", and an optional "insight", at least one of them
    present: a "warning" never comes without the top-subject "insight" right
    before it, and "info" never comes with anything else. *)
Theorem findings_shape (db : Database) :
  1 <= len (patterns_of sqlite_DATE db) <= 4 /\
  (map type (patterns_of sqlite_DATE db) = ["info"] \/
   exists a b c d : bool,
     map type (patterns_of sqlite_DATE db)
     = ((if a then ["positive"] else [])
        ++ (if b then "insight" :: (if c then ["warning"] else []) else [])
        ++ (if d then ["insight"] else []))%list /\
     a || b || d = true).
Proof.
  unfold patterns_of, analyze. rewrite rule_findings_split.
  rewrite analyze_focus_alone, analyze_wellness_alone.
  rewrite (analyze_subjects_alone _ (SubjectPerformance.mk "" 0 0 0)).
  destruct (filter _ (select_focus_data db));
    destruct (select_subject_performance db) as [|best rest];
    destruct (filter _ (select_wellness_study_correlation sqlite_DATE db));
    try destruct ((1 <? len (best :: rest)) && Qlt_bool _ 3);
    (split; [cbn; lia | cbn; pick_flags]).
Qed.

Lemma top_subject_not_sleep (r : SubjectPerformance.row) (q : Q) :
  top_subject_finding r <> sleep_focus_finding q.
Proof. intros H. apply (f_equal title) in H. simpl in H. discriminate. Qed.

Lemma top_subject_not_high_focus (r : SubjectPerformance.row) (q : Q) :
  top_subject_finding r <> high_focus_finding q.
Proof. intros H. apply (f_equal type) in H. discriminate. Qed.

Lemma top_subject_not_needs_attention (r r' : SubjectPerformance.row) :
  top_subject_finding r <> needs_attention_finding r'.
Proof. intros H. apply (f_equal type) in H. discriminate. Qed.



Lemma rule_findings_In (fd : list FocusData.row)
  (sp : list SubjectPerformance.row) (wc : list WellnessCorrelation.row)
  (f : Finding) :
  type f <> "info" ->
  (In f (analyze fd sp wc) <->
   In f (analyze_focus fd []) \/ In f (analyze_subjects sp []) \/
   In f (analyze_wellness wc [])).
Proof.
  intros Hf. unfold analyze. rewrite <- !in_app_iff, <- rule_findings_split.
  destruct (rule_findings fd sp wc) as [|g l]; [|reflexivity].
  simpl. split; [|tauto]. intros [<-|[]]. now contradiction Hf.
Qed.

(** X2.  The top-subject "insight" is emitted exactly when some subject
    qualifies.  It is built from the first row of the subject summary, which
    has at least 2 sessions and a mean focus rating that no qualifying
    subject exceeds.  When no subject qualifies, no finding of [patterns] is
    a top-subject finding. *)
Theorem top_subject_insight (db : Database) :
  match select_subject_performance db with
  | [] => forall r, ~ In (top_subject_finding r) (patterns_of sqlite_DATE db)
  | best :: _ =>
    In (top_subject_finding best) (patterns_of sqlite_DATE db) /\
    2 <= SubjectPerformance.session_count best /\
    forall r, In r (select_subject_performance db) ->
      (SubjectPerformance.avg_focus r <= SubjectPerformance.avg_focus best)%Q
  end.
Proof.
  pose proof (subject_performance_sorted db) as Hs.
  assert (forall r, In r (select_subject_performance db) ->
            2 <= SubjectPerformance.session_count r) as H2.
  { unfold select_subject_performance. intros r Hr.
    apply order_by_In, filter_In in Hr. now apply Z.leb_le. }
  unfold patterns_of.
  destruct (select_subject_performance db) as [|best rest] eqn:E.
  - intros r Hr. apply rule_findings_In in Hr; [|discriminate].
    rewrite analyze_focus_alone, analyze_wellness_alone in Hr.
    destruct Hr as [Hr|[Hr|Hr]].
    + destruct (filter _ (select_focus_data db)); [destruct Hr|].
      destruct Hr as [Hr|[]]. symmetry in Hr.
      now apply top_subject_not_high_focus in Hr.
    + destruct Hr.
    + destruct (filter _ (select_wellness_study_correlation sqlite_DATE db));
        [destruct Hr|].
      destruct Hr as [Hr|[]]. symmetry in Hr.
      now apply top_subject_not_sleep in Hr.
  - split; [|split].
    + apply rule_findings_In; [discriminate|]. right. left.
      rewrite (analyze_subjects_alone _ best). now left.
    + apply H2. now left.
    + intros r [<-|Hr]; [apply Qle_refl|].
      inversion Hs as [|? ? _ Hbest]; subst.
      rewrite Forall_forall in Hbest. now apply Hbest.
Qed.


Lemma subject_performance_NoDup (db : Database) :
  NoDup (map SubjectPerformance.subject (select_subject_performance db)).
Proof.
  unfold select_subject_performance.
  apply order_by_NoDup, NoDup_map_filter.
  rewrite subject_groups_subjects. apply distinct_NoDup, String.eqb_refl.
Qed.

Lemma last_in_tail {A : Type} (x y : A) (l : list A) (d : A) :
  In (last (x :: y :: l) d) (y :: l).
Proof.
  change (last (x :: y :: l) d) with (last (y :: l) d).
  revert y. induction l as [|z t IH]; intros y; [now left|].
  right. apply IH.
Qed.

(** X4.  When the struggling-subject "warning" is emitted, the subject it
    names is not the top subject of the same page, and its mean focus rating
    does not exceed the top subject's. *)
Theorem struggling_is_not_top (db : Database) (d : SubjectPerformance.row) :
  findings_of_type "warning" (patterns_of sqlite_DATE db) <> [] ->
  let sp := select_subject_performance db in
  SubjectPerformance.subject (last sp d)
  <> SubjectPerformance.subject (hd d sp) /\
  (SubjectPerformance.avg_focus (last sp d)
   <= SubjectPerformance.avg_focus (hd d sp))%Q /\
  In (top_subject_finding (hd d sp)) (patterns_of sqlite_DATE db) /\
  In (needs_attention_finding (last sp d)) (patterns_of sqlite_DATE db).
Proof.
  rewrite (patterns_of_warning sqlite_DATE db d). cbv zeta.
  pose proof (subject_performance_NoDup db) as Hnd.
  pose proof (subject_performance_sorted db) as Hs.
  unfold patterns_of.
  destruct (select_subject_performance db) as [|best [|second rest]] eqn:E;
    [intros H; now contradiction H | intros H; now contradiction H |].
  destruct ((1 <? len (best :: second :: rest)) && Qlt_bool _ 3) eqn:Ec;
    [intros _ | intros H; now contradiction H].
  pose proof (last_in_tail best second rest d) as Hin.
  simpl hd. split; [|split; [|split]].
  - intros Heq. simpl in Hnd. apply NoDup_cons_iff in Hnd.
    destruct Hnd as [Hnot _]. apply Hnot. rewrite <- Heq.
    now apply (in_map SubjectPerformance.subject) in Hin.
  - inversion Hs as [|? ? _ Hbest]; subst.
    rewrite Forall_forall in Hbest. now apply Hbest.
  - apply rule_findings_In; [discriminate|]. right. left.
    rewrite (analyze_subjects_alone _ d). now left.
  - apply rule_findings_In; [discriminate|]. right. left.
    rewrite (analyze_subjects_alone _ d), Ec. right. now left.
Qed.

End Findings.

(** X4, witness: Math is the top subject, History needs attention. *)
Lemma struggling_is_not_top_witness :
  findings_of_type "warning" (patterns_of iso_DATE Sample.two_subjects) <> []
  /\ SubjectPerformance.subject
       (last (select_subject_performance Sample.two_subjects)
             (SubjectPerformance.mk "" 0 0 0))
     <> SubjectPerformance.subject
          (hd (SubjectPerformance.mk "" 0 0 0)
              (select_subject_performance Sample.two_subjects)).
Proof.
  assert (findings_of_type "warning" (patterns_of iso_DATE Sample.two_subjects)
          <> []) as H by (vm_compute; discriminate).
  split; [exact H|].
  apply (struggling_is_not_top iso_DATE Sample.two_subjects
           (SubjectPerformance.mk "" 0 0 0) H).
Defined.

(** ** [get_ai_insights] and [/ai-insights] *)

Section InsightPaths.
Variable sqlite_DATE : string -> option string.
Variable sqlite_TIME : string -> option string.
Variable json_dumps : json -> string.

Local Notation "'insights'" :=
  (get_ai_insights sqlite_DATE sqlite_TIME json_dumps).
Local Notation "'prompt'" := (prompt_of sqlite_DATE sqlite_TIME json_dumps).

(** X5.  With at least 3 sessions, a healthy store and a service that
    answers, [get_ai_insights] returns the service's text as it is, after
    exactly one submission, without printing anything and without touching
    the tables. *)
Theorem service_text_verbatim (svc : Service) (w : World Database)
  (text : string) :
  first_fault (fault w) insight_actions = None ->
  3 <= len (study_sessions (tables w)) ->
  svc (service_log w) (prompt (tables w)) = Ok text ->
  insights (Some svc) w = (Ok text, with_prompt w (prompt (tables w))).
Proof.
  intros Hf Hlen Hsvc.
  rewrite get_ai_insights_configured, Hf, len_study_data.
  assert ((Z.min 20 (len (study_sessions (tables w))) <? 3) = false) as Eb
    by (apply Z.ltb_ge; lia).
  rewrite Eb. cbv zeta. now rewrite Hsvc.
Qed.

(** X6.  One call of [get_ai_insights] submits at most one prompt: the
    service log afterwards is the log before, or the log before followed by
    the prompt built from the tables, and the latter only with a configured
    service, a store that did not fail and at least 3 sessions.  The call
    never changes the tables. *)
Theorem at_most_one_submission (model : option Service) (w : World Database) :
  let w' := snd (insights model w) in
  tables w' = tables w /\
  (service_log w' = service_log w \/
   service_log w' = (service_log w ++ [prompt (tables w)])%list /\
   model <> None /\
   first_fault (fault w) insight_actions = None /\
   3 <= len (study_sessions (tables w))).
Proof.
  cbv zeta. destruct model as [svc|]; [|split; [reflexivity | now left]].
  rewrite get_ai_insights_configured.
  destruct (first_fault (fault w) insight_actions) eqn:Ef;
    [split; [reflexivity | now left]|].
  rewrite len_study_data.
  destruct (Z.min 20 (len (study_sessions (tables w))) <? 3) eqn:Eb;
    [split; [reflexivity | now left]|].
  apply Z.ltb_ge in Eb. cbv zeta.
  destruct (svc (service_log w) (prompt (tables w)));
    (split; [reflexivity|]; right; repeat split; [discriminate | lia]).
Qed.

Lemma first_fault_count (fault : db_action -> option string) :
  first_fault fault count_actions = None ->
  fault Connect = None /\ fault (Execute CountStudySessions) = None /\
  fault (Execute CountPerformanceRecords) = None /\
  fault (Execute CountWellnessTracking) = None.
Proof.
  simpl. destruct (fault Connect); [discriminate|].
  destruct (fault (Execute CountStudySessions)); [discriminate|].
  destruct (fault (Execute CountPerformanceRecords)); [discriminate|].
  destruct (fault (Execute CountWellnessTracking)); [discriminate|].
  now repeat split.
Qed.

(** X7.  When the store answers the three counts, [/ai-insights] renders the
    text that [get_ai_insights] returned, whatever path it took, together
    with the number of rows of the three tables added up. *)
Theorem ai_insights_page (model : option Service) (w : World Database) :
  first_fault (fault w) count_actions = None ->
  exists insight,
    fst (insights model (with_line w "🤖 Generating AI insights..."))
    = Ok insight /\
    fst (ai_insights sqlite_DATE sqlite_TIME json_dumps model w)
    = Ok (render_ai_insights "AI Insights" insight
            (len (study_sessions (tables w))
             + len (performance_records (tables w))
             + len (wellness_tracking (tables w)))).
Proof.
  intros Hf. apply first_fault_count in Hf. destruct Hf as [F0 [F1 [F2 F3]]].
  destruct (get_ai_insights_returns sqlite_DATE sqlite_TIME json_dumps model
              (with_line w "🤖 Generating AI insights..."))
    as [text [w' [E [Et Ef]]]].
  exists text. split; [now rewrite E|].
  unfold ai_insights, bind at 1 2. unfold print at 1. rewrite E.
  unfold get_db_connection, execute, close, bind, db_guard, ret.
  simpl in Ef, Et. rewrite Ef, F0. simpl. rewrite Ef, F1. simpl.
  rewrite Ef, F2. simpl. rewrite Ef, F3. simpl. now rewrite Et.
Qed.

End InsightPaths.

(** X5, witness: three sessions and a service that answers. *)
Lemma service_text_verbatim_witness :
  first_fault (fault (Sample.world_of Sample.three_sessions)) insight_actions
  = None /\
  3 <= len (study_sessions (tables (Sample.world_of Sample.three_sessions))) /\
  fst (get_ai_insights iso_DATE iso_TIME opaque_dumps (Some Sample.narrator)
         (Sample.world_of Sample.three_sessions))
  = Ok "**KEY PATTERNS DISCOVERED** You focus best on Physics.".
Proof.
  split; [reflexivity|]. split; [discriminate|].
  rewrite (service_text_verbatim iso_DATE iso_TIME opaque_dumps
             Sample.narrator (Sample.world_of Sample.three_sessions)
             "**KEY PATTERNS DISCOVERED** You focus best on Physics.");
    [reflexivity | reflexivity | discriminate | reflexivity].
Defined.

(** X7, witness: a healthy store with three sessions. *)
Lemma ai_insights_page_witness :
  first_fault (fault (Sample.world_of Sample.three_sessions)) count_actions
  = None /\
  exists insight,
    fst (ai_insights iso_DATE iso_TIME opaque_dumps (Some Sample.narrator)
           (Sample.world_of Sample.three_sessions))
    = Ok (render_ai_insights "AI Insights" insight 3).
Proof.
  split; [reflexivity|].
  destruct (ai_insights_page iso_DATE iso_TIME opaque_dumps
              (Some Sample.narrator) (Sample.world_of Sample.three_sessions)
              eq_refl) as [insight [_ H]].
  exists insight. exact H.
Defined.

(** ** Summary statistics *)

Lemma distinct_length {K : Type} (eqb : K -> K -> bool) (l : list K) :
  (List.length (Sql.distinct eqb l) <= List.length l)%nat.
Proof.
  induction l as [|k r IH]; simpl; [lia|].
  pose proof (filter_length_le (fun k' => negb (eqb k k'))
                (Sql.distinct eqb r)). lia.
Qed.

(** X8.  The summary statistics of [get_ai_insights] count every session,
    and the number of distinct subjects lies between 0 and that count, being
    0 only when there is no session.  Over an empty table the two averages
    are NULL and the counts 0: the query has a result, not an error. *)
Theorem summary_statistics (db : Database) :
  exists avg_focus avg_duration subjects_count,
    select_stats db
    = JDict [ ("total_sessions", JInt (len (study_sessions db)));
              ("avg_focus", avg_focus);
              ("avg_duration", avg_duration);
              ("subjects_count", JInt subjects_count) ] /\
    0 <= subjects_count <= len (study_sessions db) /\
    (subjects_count = 0 <-> study_sessions db = []) /\
    (study_sessions db = [] <-> avg_focus = JNull) /\
    (study_sessions db = [] <-> avg_duration = JNull) /\
    (study_sessions db <> [] ->
     avg_focus
     = JFloat (Sql.mean (map SessionRow.focus_rating (study_sessions db))) /\
     avg_duration
     = JFloat (Sql.mean (map SessionRow.duration (study_sessions db)))).
Proof.
  unfold select_stats. eexists. eexists. eexists.
  split; [reflexivity|].
  pose proof (distinct_length String.eqb
                (map SessionRow.subject (study_sessions db))) as Hd.
  rewrite length_map in Hd. unfold Sql.COUNT, len.
  destruct (study_sessions db) as [|s l] eqn:E.
  - simpl. repeat split; try easy; lia.
  - split; [lia|]. split; [|split; [|split]].
    + split; [|discriminate]. simpl. lia.
    + split; discriminate.
    + split; discriminate.
    + intros _. split; reflexivity.
Qed.

(** ** The dashboard *)

Lemma string_ltb_lt (a b : string) :
  String.ltb a b = true <-> String_as_OT.lt a b.
Proof.
  rewrite <- String_as_OT.cmp_lt. unfold String_as_OT.cmp, String.ltb.
  destruct (String.compare a b); split; congruence.
Qed.

Lemma string_ltb_false_trans (a b c : string) :
  String.ltb a b = false -> String.ltb b c = false -> String.ltb a c = false.
Proof.
  intros Hab Hbc. destruct (String.ltb a c) eqn:Hac; [|reflexivity].
  apply string_ltb_lt in Hac.
  assert (String.ltb a b = true) as T; [|congruence].
  apply string_ltb_lt.
  destruct (String.compare b c) eqn:E.
  - apply String.compare_eq_iff in E. now subst.
  - unfold String.ltb in Hbc. rewrite E in Hbc. discriminate.
  - apply String_as_OT.lt_trans with c; [exact Hac|].
    apply String_as_OT.cmp_lt. unfold String_as_OT.cmp.
    rewrite String.compare_antisym, E. reflexivity.
Qed.

Lemma insert_by_Permutation {A : Type} (before : A -> A -> bool) (x : A)
  (l : list A) :
  Permutation (Sql.insert_by before x l) (x :: l).
Proof.
  induction l as [|y r IH]; simpl; [reflexivity|].
  destruct (before y x); [|reflexivity].
  rewrite IH. apply perm_swap.
Qed.

Lemma order_by_Permutation {A : Type} (before : A -> A -> bool) (l : list A) :
  Permutation (Sql.order_by before l) l.
Proof.
  induction l as [|x r IH]; simpl; [reflexivity|].
  rewrite insert_by_Permutation. now constructor.
Qed.

Lemma sorted_prefix_above {A : Type} (R : A -> A -> Prop) (l1 l2 : list A) :
  StronglySorted R (l1 ++ l2) ->
  StronglySorted R l1 /\ forall a b, In a l1 -> In b l2 -> R a b.
Proof.
  induction l1 as [|x l IH]; simpl; intros H.
  - split; [constructor | intros a b []].
  - inversion H as [|? ? Hl Hx]; subst. destruct (IH Hl) as [Hs Hab].
    rewrite Forall_forall in Hx. split.
    + constructor; [exact Hs|]. rewrite Forall_forall. intros a Ha.
      apply Hx, in_or_app. now left.
    + intros a b [<-|Ha] Hb; [|now apply Hab].
      apply Hx, in_or_app. now right.
Qed.

Lemma recent_sessions_sorted (l : list SessionRow.t) :
  StronglySorted not_older
    (Sql.order_by
       (fun y x => text_desc (SessionRow.created_at x) (SessionRow.created_at y))
       l).
Proof.
  apply order_by_sorted; unfold not_older, text_desc.
  - intros a b c. apply string_ltb_false_trans.
  - intros y x H. apply string_ltb_lt in H.
    destruct (String.ltb (SessionRow.created_at y) (SessionRow.created_at x))
      eqn:E; [|reflexivity].
    apply string_ltb_lt in E. exfalso.
    pose proof (String_as_OT.lt_trans _ _ _ H E) as Hxx.
    apply String_as_OT.lt_not_eq in Hxx. now apply Hxx.
  - intros y x H. exact H.
Qed.

Lemma first_fault_dashboard (fault : db_action -> option string) :
  first_fault fault dashboard_actions = None -> forall a,
  In a dashboard_actions -> fault a = None.
Proof.
  simpl. destruct (fault Connect) eqn:E0; [discriminate|].
  destruct (fault (Execute SelectRecentSessions)) eqn:E1; [discriminate|].
  destruct (fault (Execute CountStudySessions)) eqn:E2; [discriminate|].
  destruct (fault (Execute SumDuration)) eqn:E3; [discriminate|].
  destruct (fault (Execute AvgFocusRating)) eqn:E4; [discriminate|].
  intros _ a [<-|[<-|[<-|[<-|[<-|[]]]]]]; assumption.
Qed.

(** X9.  When the store answers, [/dashboard] changes nothing and shows the
    count of all sessions together with the most recent sessions, at most 5
    of them, newest first: every session is either shown or left out, and no
    session left out was created later than one that is shown.  With no
    session at all it shows an empty list, the count 0, 0 hours and the
    integer 0 as average focus. *)
Theorem dashboard_shows_latest (w : World Database) :
  first_fault (fault w) dashboard_actions = None ->
  (exists shown rest total_hours avg_focus,
     dashboard w
     = (Ok (render_dashboard "Dashboard" shown
              (len (study_sessions (tables w))) total_hours avg_focus), w) /\
     Permutation (shown ++ rest) (study_sessions (tables w)) /\
     len shown = Z.min 5 (len (study_sessions (tables w))) /\
     StronglySorted not_older shown /\
     forall s t, In s shown -> In t rest -> not_older s t) /\
  (study_sessions (tables w) = [] ->
   fst (dashboard w)
   = Ok (render_dashboard "Dashboard" [] 0 (round1 (inject_Z 0 / 60))
           (PyInt 0))).
Proof.
  intros Hf. pose proof (first_fault_dashboard _ Hf) as Ha.
  assert (dashboard w
          = (Ok (render_dashboard "Dashboard"
                   (Sql.limit 5
                      (Sql.order_by
                         (fun y x => text_desc (SessionRow.created_at x)
                                               (SessionRow.created_at y))
                         (study_sessions (tables w))))
                   (Sql.COUNT (study_sessions (tables w)))
                   (round1 (inject_Z (int_or_0
                              (Sql.SUM (map SessionRow.duration
                                            (study_sessions (tables w))))) / 60))
                   (round_1 (float_or_0
                               (Sql.AVG (map SessionRow.focus_rating
                                             (study_sessions (tables w))))))),
             w)) as E.
  { unfold dashboard, get_db_connection, execute, close, bind, db_guard, ret.
    rewrite !Ha by (simpl; tauto). reflexivity. }
  split.
  - set (sorted := Sql.order_by
                     (fun y x => text_desc (SessionRow.created_at x)
                                           (SessionRow.created_at y))
                     (study_sessions (tables w))) in *.
    exists (firstn 5 sorted), (skipn 5 sorted). eexists. eexists.
    split; [exact E|].
    pose proof (recent_sessions_sorted (study_sessions (tables w))) as Hs.
    fold sorted in Hs. rewrite <- (firstn_skipn 5 sorted) in Hs.
    apply sorted_prefix_above in Hs. destruct Hs as [Hs Hab].
    split; [|split; [|split]].
    + rewrite firstn_skipn. apply order_by_Permutation.
    + unfold len. rewrite length_firstn. unfold sorted.
      rewrite order_by_length. lia.
    + exact Hs.
    + exact Hab.
  - intros Hnil. rewrite E, Hnil. reflexivity.
Qed.

(** X9, witness: a healthy store with three sessions. *)
Lemma dashboard_shows_latest_witness :
  first_fault (fault (Sample.world_of Sample.three_sessions)) dashboard_actions
  = None /\
  shown_total (fst (dashboard (Sample.world_of Sample.three_sessions)))
  = Some 3.
Proof.
  split; [reflexivity|].
  destruct (dashboard_shows_latest (Sample.world_of Sample.three_sessions)
              eq_refl) as [[shown [rest [h [a [E _]]]]] _].
  rewrite E. reflexivity.
Defined.

(** ** Deleting rows *)

Lemma filter_idempotent {A : Type} (p : A -> bool) (l : list A) :
  filter p (filter p l) = filter p l.
Proof.
  induction l as [|x r IH]; simpl; [reflexivity|].
  destruct (p x) eqn:E; simpl; [now rewrite E, IH | exact IH].
Qed.

Lemma filter_keeps_all {A : Type} (p : A -> bool) (l : list A) :
  (forall x, In x l -> p x = true) -> filter p l = l.
Proof.
  induction l as [|x r IH]; simpl; intros H; [reflexivity|].
  rewrite (H x) by now left. f_equal. apply IH. intros y Hy. apply H.
  now right.
Qed.

Lemma first_fault_delete (fault : db_action -> option string) :
  first_fault fault delete_actions = None ->
  fault Connect = None /\ fault (Execute DeleteStudySession) = None /\
  fault Commit = None.
Proof.
  simpl. destruct (fault Connect); [discriminate|].
  destruct (fault (Execute DeleteStudySession)); [discriminate|].
  destruct (fault Commit); [discriminate|]. now repeat split.
Qed.

Lemma delete_study_session_runs (session_id : Z) (w : World Database) :
  first_fault (fault w) delete_actions = None ->
  delete_study_session session_id w
  = (Ok (redirect "dashboard"
           ("Study session deleted successfully!", "success")),
     with_tables w (delete_session_row session_id (tables w))).
Proof.
  intros Hf. apply first_fault_delete in Hf. destruct Hf as [F0 [F1 F2]].
  unfold delete_study_session, get_db_connection, execute_update, commit,
    close, bind, db_guard, ret.
  now rewrite F0, F1, F2.
Qed.

(** X10.  When the store does not fail, [/delete-study-session] removes
    exactly the sessions with the given id: every other session stays, the
    other two tables stay as they are, and nothing is printed or submitted.
    It answers with the same success message whether a row was removed or
    not: deleting an id that no session has leaves the tables as they were,
    and so does deleting the same id a second time. *)
Theorem delete_study_session_effect (session_id : Z) (w : World Database) :
  first_fault (fault w) delete_actions = None ->
  let db := tables w in
  let db' := delete_session_row session_id db in
  let done := Ok (redirect "dashboard"
                    ("Study session deleted successfully!", "success")) in
  delete_study_session session_id w = (done, with_tables w db') /\
  (forall s, In s (study_sessions db') <->
             In s (study_sessions db) /\ SessionRow.id s <> session_id) /\
  performance_records db' = performance_records db /\
  wellness_tracking db' = wellness_tracking db /\
  delete_study_session session_id (with_tables w db')
  = (done, with_tables w db') /\
  ((forall s, In s (study_sessions db) -> SessionRow.id s <> session_id) ->
   db' = db).
Proof.
  intros Hf. cbv zeta. split; [now apply delete_study_session_runs|].
  split; [|split; [reflexivity|split; [reflexivity|split]]].
  - intros s. simpl. rewrite filter_In, negb_true_iff, Z.eqb_neq. tauto.
  - rewrite delete_study_session_runs by exact Hf.
    unfold with_tables, delete_session_row. simpl.
    now rewrite filter_idempotent.
  - intros Hnone. unfold delete_session_row.
    rewrite filter_keeps_all; [now destruct (tables w)|].
    intros s Hs. apply negb_true_iff, Z.eqb_neq. now apply Hnone.
Qed.

(** X10, witness: the first of two sessions is deleted. *)
Lemma delete_study_session_effect_witness :
  first_fault (fault (Sample.world_of Sample.two_sessions)) delete_actions
  = None /\
  snd (delete_study_session 1 (Sample.world_of Sample.two_sessions))
  = with_tables (Sample.world_of Sample.two_sessions)
      (delete_session_row 1 Sample.two_sessions).
Proof.
  split; [reflexivity|].
  destruct (delete_study_session_effect 1
              (Sample.world_of Sample.two_sessions) eq_refl) as [E _].
  now rewrite E.
Defined.

Section MoreHandlers.
Variable py_int : string -> option Z.
Variable py_float : string -> option Q.
Variable sqlite_DATE : string -> option string.
Variable more_fault : more_statement -> option string.

(** X11.  When the store does not fail, [/delete-performance-record] and
    [/delete-wellness-entry] each remove the rows with the given id from
    their own table and leave the two other tables as they are. *)
Theorem delete_touches_one_table (row_id : Z) (w : World Database) :
  fault w Connect = None -> fault w Commit = None ->
  (more_fault DeletePerformanceRecord = None ->
   exists db',
     delete_performance_record more_fault row_id w
     = (Ok (redirect "dashboard"
              ("Performance record deleted successfully!", "success")),
        with_tables w db') /\
     (forall p, In p (performance_records db') <->
                In p (performance_records (tables w)) /\
                PerformanceRow.id p <> row_id) /\
     study_sessions db' = study_sessions (tables w) /\
     wellness_tracking db' = wellness_tracking (tables w)) /\
  (more_fault DeleteWellnessEntry = None ->
   exists db',
     delete_wellness_entry more_fault row_id w
     = (Ok (redirect "dashboard"
              ("Wellness entry deleted successfully!", "success")),
        with_tables w db') /\
     (forall e, In e (wellness_tracking db') <->
                In e (wellness_tracking (tables w)) /\
                WellnessRow.id e <> row_id) /\
     study_sessions db' = study_sessions (tables w) /\
     performance_records db' = performance_records (tables w)).
Proof.
  intros F0 F2. split; intros F1.
  - exists (delete_performance_row row_id (tables w)). split; [|split].
    + unfold delete_performance_record, get_db_connection,
        execute_update_more, more_guard, commit, close, bind, db_guard, ret.
      now rewrite F0, F1, F2.
    + intros p. simpl. rewrite filter_In, negb_true_iff, Z.eqb_neq. tauto.
    + split; reflexivity.
  - exists (delete_wellness_row row_id (tables w)). split; [|split].
    + unfold delete_wellness_entry, get_db_connection,
        execute_update_more, more_guard, commit, close, bind, db_guard, ret.
      now rewrite F0, F1, F2.
    + intros e. simpl. rewrite filter_In, negb_true_iff, Z.eqb_neq. tauto.
    + split; reflexivity.
Qed.

End MoreHandlers.

(** X11, witness: a healthy store. *)
Lemma delete_touches_one_table_witness :
  fault (Sample.world_of Sample.two_days) Connect = None /\
  fault (Sample.world_of Sample.two_days) Commit = None /\
  (healthy DeleteWellnessEntry = None ->
   exists db',
     delete_wellness_entry healthy 1 (Sample.world_of Sample.two_days)
     = (Ok (redirect "dashboard"
              ("Wellness entry deleted successfully!", "success")),
        with_tables (Sample.world_of Sample.two_days) db') /\
     (forall e, In e (wellness_tracking db') <->
                In e (wellness_tracking
                        (tables (Sample.world_of Sample.two_days))) /\
                WellnessRow.id e <> 1) /\
     study_sessions db'
     = study_sessions (tables (Sample.world_of Sample.two_days)) /\
     performance_records db'
     = performance_records (tables (Sample.world_of Sample.two_days))).
Proof.
  split; [reflexivity|]. split; [reflexivity|].
  apply (delete_touches_one_table healthy 1 (Sample.world_of Sample.two_days));
    reflexivity.
Defined.

(** ** Logging a study session *)

Section LogStudy.
Variable py_int : string -> option Z.
Variable more_fault : more_statement -> option string.

Local Notation "'the_form'" := (study_form py_int).

Lemma study_form_row (rowid : Z) (now : string) (form : Form)
  (row : SessionRow.t) :
  the_form rowid now form = Parsed row ->
  SessionRow.id row = rowid /\ SessionRow.created_at row = now.
Proof.
  unfold study_form, int_field, field, int_of, and_then.
  destruct (form_get form "subject"); [|discriminate].
  destruct (form_get form "duration") as [t2|]; [|discriminate].
  destruct (py_int t2); [|discriminate].
  destruct (form_get form "start_time"); [|discriminate].
  destruct (form_get form "end_time"); [|discriminate].
  destruct (form_get form "study_method"); [|discriminate].
  destruct (form_get form "difficulty_level") as [t6|]; [|discriminate].
  destruct (py_int t6); [|discriminate].
  destruct (form_get form "focus_rating") as [t7|]; [|discriminate].
  destruct (py_int t7); [|discriminate].
  intros E. injection E as <-. now split.
Qed.

(** X12.  [log_study] reads seven required fields and three of them as
    integers.  The form is accepted exactly when all seven are present and
    the three numbers parse, and then the row to insert carries the field
    values as they are, the given notes or the empty text, the id and the
    timestamp of the store.  It is rejected with [BadRequestKeyError] for a
    required field that is missing or with [ValueError] for a numeric field
    that does not parse; no value is checked against a range. *)
Theorem study_form_reads_fields (rowid : Z) (now : string) (form : Form) :
  (forall row,
     the_form rowid now form = Parsed row <->
     exists duration_text difficulty_text focus_text,
       form_get form "subject" = Some (SessionRow.subject row) /\
       form_get form "duration" = Some duration_text /\
       py_int duration_text = Some (SessionRow.duration row) /\
       form_get form "start_time" = Some (SessionRow.start_time row) /\
       form_get form "end_time" = Some (SessionRow.end_time row) /\
       form_get form "study_method" = Some (SessionRow.study_method row) /\
       form_get form "difficulty_level" = Some difficulty_text /\
       py_int difficulty_text = Some (SessionRow.difficulty_level row) /\
       form_get form "focus_rating" = Some focus_text /\
       py_int focus_text = Some (SessionRow.focus_rating row) /\
       SessionRow.notes row = Some (text_or_empty form "notes") /\
       SessionRow.id row = rowid /\ SessionRow.created_at row = now) /\
  (forall e,
     the_form rowid now form = Rejected e ->
     (exists key,
        In key ["subject"; "duration"; "start_time"; "end_time";
                "study_method"; "difficulty_level"; "focus_rating"] /\
        form_get form key = None /\ e = BadRequestKeyError key) \/
     (exists key text,
        In key ["duration"; "difficulty_level"; "focus_rating"] /\
        form_get form key = Some text /\ py_int text = None /\
        e = ValueError text)).
Proof.
  unfold study_form, int_field, field, int_of, and_then. split.
  - intros row. split.
    + destruct (form_get form "subject") as [v1|]; [|discriminate].
      destruct (form_get form "duration") as [t2|]; [|discriminate].
      destruct (py_int t2) as [v2|] eqn:P2; [|discriminate].
      destruct (form_get form "start_time") as [v3|]; [|discriminate].
      destruct (form_get form "end_time") as [v4|]; [|discriminate].
      destruct (form_get form "study_method") as [v5|]; [|discriminate].
      destruct (form_get form "difficulty_level") as [t6|]; [|discriminate].
      destruct (py_int t6) as [v6|] eqn:P6; [|discriminate].
      destruct (form_get form "focus_rating") as [t7|]; [|discriminate].
      destruct (py_int t7) as [v7|] eqn:P7; [|discriminate].
      intros E. injection E as <-. exists t2, t6, t7. simpl.
      now repeat split.
    + intros [t2 [t6 [t7 H]]].
      destruct H as [-> [-> [P2 [-> [-> [-> [-> [P6 [-> [P7 [N [I C]]]]]]]]]]]].
      rewrite P2, P6, P7. destruct row. simpl in *. now subst.
  - intros e.
    destruct (form_get form "subject") as [v1|] eqn:G1;
      [|intros E; injection E as <-; left; exists "subject"; simpl; tauto].
    destruct (form_get form "duration") as [t2|] eqn:G2;
      [|intros E; injection E as <-; left; exists "duration"; simpl; tauto].
    destruct (py_int t2) as [v2|] eqn:P2;
      [|intros E; injection E as <-; right; exists "duration", t2; simpl;
        tauto].
    destruct (form_get form "start_time") as [v3|] eqn:G3;
      [|intros E; injection E as <-; left; exists "start_time"; simpl; tauto].
    destruct (form_get form "end_time") as [v4|] eqn:G4;
      [|intros E; injection E as <-; left; exists "end_time"; simpl; tauto].
    destruct (form_get form "study_method") as [v5|] eqn:G5;
      [|intros E; injection E as <-; left; exists "study_method"; simpl;
        tauto].
    destruct (form_get form "difficulty_level") as [t6|] eqn:G6;
      [|intros E; injection E as <-; left; exists "difficulty_level"; simpl;
        tauto].
    destruct (py_int t6) as [v6|] eqn:P6;
      [|intros E; injection E as <-; right; exists "difficulty_level", t6;
        simpl; tauto].
    destruct (form_get form "focus_rating") as [t7|] eqn:G7;
      [|intros E; injection E as <-; left; exists "focus_rating"; simpl;
        tauto].
    destruct (py_int t7) as [v7|] eqn:P7;
      [|intros E; injection E as <-; right; exists "focus_rating", t7; simpl;
        tauto].
    discriminate.
Qed.

Local Notation "'log'" := (log_study py_int more_fault).

(** Every way a POST to [/log-study] can end. *)
Lemma log_study_post (form : Form) (rowid : Z) (now : string)
  (w : World Database) :
  log "POST" form rowid now w
  = match the_form rowid now form with
    | Rejected e => (Aborted e, w)
    | Parsed row =>
      match fault w Connect with
      | Some msg => (Failed (DataStoreError msg), w)
      | None =>
        match more_fault InsertStudySession with
        | Some msg => (Failed (DataStoreError msg), w)
        | None =>
          match fault w Commit with
          | Some msg => (Failed (DataStoreError msg), w)
          | None =>
            (Returned
               (respond
                  (redirect "dashboard"
                     ("Study session logged successfully! 📚", "success"))),
             with_tables w (insert_session_row row (tables w)))
          end
        end
      end
    end.
Proof.
  unfold log_study. simpl String.eqb.
  destruct (the_form rowid now form) as [row|e]; [|reflexivity].
  unfold run_store, get_db_connection, execute_update_more, more_guard,
    commit, close, bind, db_guard, ret.
  destruct (fault w Connect); [reflexivity|].
  destruct (more_fault InsertStudySession); [reflexivity|].
  now destruct (fault w Commit).
Qed.

(** X13.  A request to [/log-study] either adds exactly one row or changes
    nothing.  If a POST returns, it redirects to the dashboard and the
    tables are the old ones with the row read from the form appended to the
    study sessions.  If it raises, from the form or from the store, the
    world is left as it was: a form that is rejected never reaches the
    store, and a failed insert or commit leaves no row behind.  Any other
    method shows the form and changes nothing. *)
Theorem log_study_all_or_nothing (method : string) (form : Form) (rowid : Z)
  (now : string) (w : World Database) :
  match log method form rowid now w with
  | (Returned reply, w') =>
    (method = "POST" /\
     reply = respond
               (redirect "dashboard"
                  ("Study session logged successfully! 📚", "success")) /\
     exists row,
       the_form rowid now form = Parsed row /\
       w' = with_tables w (insert_session_row row (tables w))) \/
    (method <> "POST" /\
     reply = render_template "log_study.html" "Log Study Session" /\ w' = w)
  | (Aborted e, w') => the_form rowid now form = Rejected e /\ w' = w
  | (Failed e, w') => w' = w
  end.
Proof.
  destruct (String.eqb_spec method "POST") as [->|Hm].
  - rewrite log_study_post.
    destruct (the_form rowid now form) as [row|e]; [|now split].
    destruct (fault w Connect); [reflexivity|].
    destruct (more_fault InsertStudySession); [reflexivity|].
    destruct (fault w Commit); [reflexivity|].
    left. split; [reflexivity|]. split; [reflexivity|]. now exists row.
  - unfold log_study. apply String.eqb_neq in Hm. rewrite Hm.
    right. apply String.eqb_neq in Hm. now repeat split.
Qed.

(** X14.  Logging a session and then deleting the id it was given restores
    the tables, provided the id was not in use before (as SQLite's
    AUTOINCREMENT guarantees) and the store does not fail on the delete. *)
Theorem log_then_delete (form : Form) (rowid : Z) (now : string)
  (w w1 : World Database) (reply : Reply) :
  log "POST" form rowid now w = (Returned reply, w1) ->
  (forall s, In s (study_sessions (tables w)) -> SessionRow.id s <> rowid) ->
  first_fault (fault w1) delete_actions = None ->
  exists w2,
    delete_study_session rowid w1
    = (Ok (redirect "dashboard"
             ("Study session deleted successfully!", "success")), w2) /\
    tables w2 = tables w.
Proof.
  intros Hlog Hfresh Hf. rewrite log_study_post in Hlog.
  destruct (the_form rowid now form) as [row|e] eqn:Ef; [|discriminate].
  destruct (fault w Connect); [discriminate|].
  destruct (more_fault InsertStudySession); [discriminate|].
  destruct (fault w Commit); [discriminate|].
  injection Hlog as _ <-.
  apply study_form_row in Ef. destruct Ef as [Hid _].
  eexists. split; [now apply delete_study_session_runs|].
  simpl. unfold delete_session_row. simpl. rewrite filter_app. simpl.
  rewrite Hid, Z.eqb_refl. simpl. rewrite app_nil_r.
  rewrite filter_keeps_all; [now destruct (tables w)|].
  intros s Hs. apply negb_true_iff, Z.eqb_neq. now apply Hfresh.
Qed.

(** X15.  After a POST to [/log-study] has returned, the dashboard counts
    one session more than before. *)
Theorem log_then_dashboard (form : Form) (rowid : Z) (now : string)
  (w w1 : World Database) (reply : Reply) :
  log "POST" form rowid now w = (Returned reply, w1) ->
  first_fault (fault w1) dashboard_actions = None ->
  shown_total (fst (dashboard w1))
  = Some (len (study_sessions (tables w)) + 1).
Proof.
  intros Hlog Hf. rewrite log_study_post in Hlog.
  destruct (the_form rowid now form) as [row|e]; [|discriminate].
  destruct (fault w Connect); [discriminate|].
  destruct (more_fault InsertStudySession); [discriminate|].
  destruct (fault w Commit); [discriminate|].
  injection Hlog as _ <-.
  pose proof (first_fault_dashboard _ Hf) as Ha.
  unfold dashboard, get_db_connection, execute, close, bind, db_guard, ret.
  rewrite !Ha by (simpl; tauto). simpl. f_equal.
  unfold Sql.COUNT, len. rewrite length_app. simpl. lia.
Qed.

End LogStudy.

(** X14, witness: a form without notes, logged under the unused id 3 into
    a store with two sessions. *)
Lemma log_then_delete_witness :
  (forall s, In s (study_sessions
                     (tables (Sample.world_of Sample.two_sessions))) ->
             SessionRow.id s <> 3) /\
  exists w1 w2 reply,
    log_study dec_int healthy "POST" Request.study 3 "2024-03-06 18:25:00"
      (Sample.world_of Sample.two_sessions) = (Returned reply, w1) /\
    first_fault (fault w1) delete_actions = None /\
    delete_study_session 3 w1
    = (Ok (redirect "dashboard"
             ("Study session deleted successfully!", "success")), w2) /\
    tables w2 = tables (Sample.world_of Sample.two_sessions).
Proof.
  assert (forall s, In s (study_sessions
                            (tables (Sample.world_of Sample.two_sessions))) ->
                    SessionRow.id s <> 3) as Hfresh.
  { intros s [<-|[<-|[]]]; discriminate. }
  split; [exact Hfresh|].
  destruct (log_study dec_int healthy "POST" Request.study 3
              "2024-03-06 18:25:00" (Sample.world_of Sample.two_sessions))
    as [o w1] eqn:E.
  vm_compute in E. injection E as <- <-.
  destruct (log_then_delete dec_int healthy Request.study 3
              "2024-03-06 18:25:00" (Sample.world_of Sample.two_sessions)
              _ _ eq_refl Hfresh eq_refl) as [w2 [Ed Et]].
  eexists. exists w2. eexists. split; [reflexivity|].
  split; [reflexivity|]. split; [exact Ed | exact Et].
Defined.

(** X15, witness: the same request; the dashboard then counts 3. *)
Lemma log_then_dashboard_witness :
  exists w1 reply,
    log_study dec_int healthy "POST" Request.study 3 "2024-03-06 18:25:00"
      (Sample.world_of Sample.two_sessions) = (Returned reply, w1) /\
    first_fault (fault w1) dashboard_actions = None /\
    shown_total (fst (dashboard w1)) = Some 3.
Proof.
  destruct (log_study dec_int healthy "POST" Request.study 3
              "2024-03-06 18:25:00" (Sample.world_of Sample.two_sessions))
    as [o w1] eqn:E.
  vm_compute in E. injection E as <- <-.
  eexists. eexists. split; [reflexivity|]. split; [reflexivity|].
  apply (log_then_dashboard dec_int healthy Request.study 3
           "2024-03-06 18:25:00" (Sample.world_of Sample.two_sessions)
           _ _ eq_refl eq_refl).
Defined.

(** ** Logging performance records and wellness entries *)

Section LogOthers.
Variable py_int : string -> option Z.
Variable py_float : string -> option Q.
Variable more_fault : more_statement -> option string.

(** X16.  [/log-performance] stores what it parses: when the five required
    fields are present, the two scores read as floats and the store does
    not fail, a POST appends one row with exactly those values (and the
    topics, or the empty text) and redirects.  No relation between [score]
    and [max_score] is checked, and a [max_score] of zero is stored like any
    other. *)
Theorem log_performance_stores (form : Form) (rowid : Z) (now : string)
  (w : World Database) (subject assessment_type score_text max_text date
     : string) (score max_score : Q) :
  form_get form "subject" = Some subject ->
  form_get form "assessment_type" = Some assessment_type ->
  form_get form "score" = Some score_text ->
  py_float score_text = Some score ->
  form_get form "max_score" = Some max_text ->
  py_float max_text = Some max_score ->
  form_get form "date" = Some date ->
  fault w Connect = None -> fault w Commit = None ->
  more_fault InsertPerformanceRecord = None ->
  log_performance py_float more_fault "POST" form rowid now w
  = (Returned
       (respond
          (redirect "dashboard"
             ("Performance record added successfully! 📈", "success"))),
     with_tables w
       (insert_performance_row
          (PerformanceRow.mk rowid subject assessment_type score max_score
             date (Some (text_or_empty form "topics_covered")) now)
          (tables w))).
Proof.
  intros G1 G2 G3 P3 G4 P4 G5 F0 F2 F1.
  unfold log_performance, performance_form, float_field, field, float_of,
    and_then.
  simpl String.eqb. rewrite G1, G2, G3, P3, G4, P4, G5.
  unfold run_store, get_db_connection, execute_update_more, more_guard,
    commit, close, bind, db_guard, ret.
  now rewrite F0, F1, F2.
Qed.


End LogOthers.

(** X16, witness: a quiz out of 0 points is stored. *)
Lemma log_performance_stores_witness :
  form_get Request.performance "max_score" = Some "0" /\
  dec_float "0" = Some 0%Q /\
  performance_records
    (tables (snd (log_performance dec_float healthy "POST"
                    Request.performance 1 "2024-03-06 19:00:00"
                    (Sample.world_of Sample.two_sessions))))
  = [PerformanceRow.mk 1 "Chemistry" "Quiz" (inject_Z 7) 0 "2024-03-06"
       (Some "") "2024-03-06 19:00:00"].
Proof.
  split; [reflexivity|]. split; [reflexivity|].
  rewrite (log_performance_stores dec_float healthy Request.performance 1
             "2024-03-06 19:00:00" (Sample.world_of Sample.two_sessions)
             "Chemistry" "Quiz" "7" "0" "2024-03-06" (inject_Z 7) 0);
    reflexivity.
Defined.


(** ** The chart data of [/api/study-data] *)

Section Groups.
Context {A K : Type}.
Variable eqb : K -> K -> bool.
Hypothesis eqb_eq : forall a b, eqb a b = true <-> a = b.

Lemma eqb_same (a : K) : eqb a a = true.
Proof. now apply eqb_eq. Qed.

Lemma one_key_matches (a : K) (v : Z) (keys : list K) :
  NoDup keys -> In a keys ->
  Sql.total (map (fun k => if eqb k a then v else 0) keys) = v.
Proof.
  induction 1 as [|k r Hk Hr IH]; intros Hin; [destruct Hin|].
  simpl. destruct Hin as [->|Hin].
  - rewrite eqb_same.
    assert (Sql.total (map (fun k => if eqb k a then v else 0) r) = 0) as E.
    { clear IH Hr. induction r as [|k r IHr]; simpl; [reflexivity|].
      destruct (eqb k a) eqn:Ek.
      - apply eqb_eq in Ek. subst. exfalso. apply Hk. now left.
      - apply IHr. intros H. apply Hk. now right. }
    rewrite E. lia.
  - destruct (eqb k a) eqn:Ek.
    + apply eqb_eq in Ek. subst. contradiction.
    + rewrite IH by exact Hin. lia.
Qed.

Lemma totals_of_groups (f : A -> Z) (key : A -> K) (keys : list K)
  (rows : list A) :
  NoDup keys -> (forall r, In r rows -> In (key r) keys) ->
  Sql.total (map (fun k => Sql.total
                             (map f (filter (fun r => eqb k (key r)) rows)))
                 keys)
  = Sql.total (map f rows).
Proof.
  intros Hnd. induction rows as [|x rs IH]; intros Hcov.
  - simpl. induction keys as [|k r IHk]; simpl; [reflexivity|].
    apply NoDup_cons_iff in Hnd. now rewrite IHk.
  - simpl.
    rewrite <- IH by (intros r Hr; apply Hcov; now right).
    rewrite <- (one_key_matches (key x) (f x) keys Hnd)
      by (apply Hcov; now left).
    clear. induction keys as [|k r IHk]; simpl; [reflexivity|].
    destruct (eqb k (key x)); simpl; lia.
Qed.

(** The totals of the groups of a [GROUP BY] add up to the total of the
    rows. *)
Lemma group_totals (f : A -> Z) (key : A -> K) (rows : list A) :
  Sql.total (map (fun g => Sql.total (map f (snd g)))
                 (Sql.group_by eqb key rows))
  = Sql.total (map f rows).
Proof.
  unfold Sql.group_by. rewrite map_map. simpl.
  apply totals_of_groups.
  - apply distinct_NoDup, eqb_same.
  - intros r Hr.
    destruct (distinct_covers eqb eqb_same
                (fun a b c H1 H2 =>
                   proj2 (eqb_eq a c)
                     (eq_trans (proj1 (eqb_eq a b) H1)
                               (proj1 (eqb_eq b c) H2)))
                (key r) (map key rows) (in_map key rows r Hr)) as [k [Hk E]].
    apply eqb_eq in E. now subst.
Qed.
End Groups.

Lemma same_group_eq (a b : option string) : same_group a b = true <-> a = b.
Proof.
  destruct a as [x|], b as [y|]; simpl; split; try congruence.
  - intros E. apply String.eqb_eq in E. now subst.
  - intros E. injection E as ->. apply String.eqb_refl.
Qed.

Section Charts.
Variable sqlite_DATE : string -> option string.
Variable more_fault : more_statement -> option string.

(** X18.  The per-subject series of [/api/study-data] has one entry for
    every subject that has a session, also for a subject with a single
    session, and none twice; an entry carries the total minutes of the
    sessions of its subject, and the totals of all entries add up to the
    total minutes of all sessions.  When the store answers, the handler
    returns both series and changes nothing. *)
Theorem subject_totals (week_ago : string) (w : World Database) :
  let db := tables w in
  let rows := select_subject_data db in
  NoDup (map fst rows) /\
  (forall s, In s (study_sessions db) ->
             In (SessionRow.subject s) (map fst rows)) /\
  (forall row, In row rows ->
     sessions_on_subject (fst row) db <> [] /\
     snd row
     = Sql.total (map SessionRow.duration
                      (sessions_on_subject (fst row) db))) /\
  Sql.total (map snd rows)
  = Sql.total (map SessionRow.duration (study_sessions db)) /\
  (fault w Connect = None -> more_fault SelectSubjectData = None ->
   more_fault SelectDailyData = None ->
   exists daily,
     api_study_data sqlite_DATE more_fault week_ago w
     = (Returned
          (jsonify
             (JDict
                [ ("subjects",
                   JList (map (fun row =>
                                 JDict [ ("subject", JStr (fst row));
                                         ("hours", hours (snd row)) ])
                              rows));
                  ("daily", JList daily) ])), w)).
Proof.
  cbv zeta. unfold select_subject_data.
  split; [|split; [|split; [|split]]].
  - rewrite map_map. simpl. rewrite (group_by_keys String.eqb).
    apply distinct_NoDup, String.eqb_refl.
  - intros s Hs. rewrite map_map. simpl. rewrite (group_by_keys String.eqb).
    destruct (distinct_covers String.eqb String.eqb_refl string_eqb_trans
                (SessionRow.subject s)
                (map SessionRow.subject (study_sessions (tables w))))
      as [k [Hk E]]; [now apply in_map|].
    apply String.eqb_eq in E. now subst.
  - intros row Hrow. apply in_map_iff in Hrow. destruct Hrow as [g [<- Hg]].
    apply (group_by_In String.eqb String.eqb_refl) in Hg.
    destruct Hg as [Eg [_ Hne]]. simpl. unfold sessions_on_subject.
    rewrite <- Eg. now split.
  - rewrite map_map. simpl. apply (group_totals String.eqb String.eqb_eq).
  - intros F0 F1 F2. eexists.
    unfold api_study_data, run_store, get_db_connection, execute_more,
      more_guard, close, bind, db_guard, ret.
    rewrite F0, F1, F2. reflexivity.
Qed.

Lemma opt_text_desc_trans (a b c : option string) :
  opt_text_desc b a = false -> opt_text_desc c b = false ->
  opt_text_desc c a = false.
Proof.
  destruct a as [x|], b as [y|], c as [z|]; simpl; try congruence.
  intros H1 H2. now apply string_ltb_false_trans with y.
Qed.

Lemma opt_text_desc_asym (a b : option string) :
  opt_text_desc a b = true -> opt_text_desc b a = false.
Proof.
  destruct a as [x|], b as [y|]; simpl; try congruence.
  intros H. destruct (String.ltb y x) eqn:E; [|reflexivity].
  apply string_ltb_lt in H, E.
  pose proof (String_as_OT.lt_trans _ _ _ H E) as Hxx.
  apply String_as_OT.lt_not_eq in Hxx. now contradiction Hxx.
Qed.

Lemma total_order_by_opt (before : option string * Z -> option string * Z -> bool)
  (l : list (option string * Z)) :
  Sql.total (map snd (Sql.order_by before l)) = Sql.total (map snd l).
Proof.
  induction l as [|x r IH]; simpl; [reflexivity|]. rewrite <- IH.
  generalize (Sql.order_by before r) as sorted.
  induction sorted as [|y t IHt]; simpl; [reflexivity|].
  destruct (before y x); simpl; [rewrite IHt; simpl|]; lia.
Qed.

(** X19.  The daily series of [/api/study-data] is built from the sessions
    created at or after the start of the window and from no other: every
    entry stands for a date on which such a session exists, no date occurs
    twice, the entries are in ascending order of date with a NULL date
    first, and their totals add up to the total minutes of the sessions in
    the window. *)
Theorem daily_totals (week_ago : string) (db : Database) :
  let rows := select_daily_data sqlite_DATE week_ago db in
  (forall s, In s (sessions_since week_ago db) <->
             In s (study_sessions db) /\
             String.ltb (SessionRow.created_at s) week_ago = false) /\
  (forall row, In row rows ->
     exists s, In s (sessions_since week_ago db) /\
               sqlite_DATE (SessionRow.created_at s) = fst row) /\
  NoDup (map fst rows) /\
  StronglySorted (fun a b => opt_text_desc (fst b) (fst a) = false) rows /\
  Sql.total (map snd rows)
  = Sql.total (map SessionRow.duration (sessions_since week_ago db)).
Proof.
  cbv zeta. unfold select_daily_data.
  split; [|split; [|split; [|split]]].
  - intros s. unfold sessions_since. rewrite filter_In, negb_true_iff.
    reflexivity.
  - intros row Hrow. apply order_by_In, in_map_iff in Hrow.
    destruct Hrow as [g [<- Hg]].
    apply (group_by_In same_group
             (fun k => proj2 (same_group_eq k k) eq_refl)) in Hg.
    destruct Hg as [_ [Hk _]]. apply in_map_iff in Hk.
    destruct Hk as [s [Es Hs]]. exists s. now split.
  - apply order_by_NoDup. rewrite map_map. simpl.
    rewrite (group_by_keys same_group).
    apply distinct_NoDup. intros k. now apply same_group_eq.
  - apply order_by_sorted.
    + intros a b c. apply opt_text_desc_trans.
    + intros y x. apply opt_text_desc_asym.
    + intros y x H. exact H.
  - rewrite total_order_by_opt, map_map. simpl.
    apply (group_totals same_group same_group_eq).
Qed.

End Charts.

(** ** The handlers of [app_old.py] that look up [get_db_connection] *)

Lemma try_except_returns {D A : Type} (m : M D A) (handler : exn -> M D A)
  (w : World D) :
  (forall e w', exists a w'', handler e w' = (Ok a, w'')) ->
  exists a w', try_except m handler w = (Ok a, w').
Proof.
  intros H. unfold try_except. destruct (m w) as [[a|e] w'].
  - now exists a, w'.
  - apply H.
Qed.

Section OldHandlers.
Variable py_int : string -> option Z.
Variable strftime_Ymd : string -> string.
Variable json_dumps : json -> string.
Variable more_fault : more_statement -> option string.
Variable sqlite_DATE : string -> option string.

Lemma app_old_get_ai_insights_returns (model : option Service)
  (current_user : option Z) (w : World models.Tables) :
  exists text w',
    AppOld.get_ai_insights strftime_Ymd json_dumps model current_user w
    = (Ok text, w').
Proof.
  destruct model as [svc|]; [|now exists Template.unavailable, w].
  unfold AppOld.get_ai_insights. apply try_except_returns.
  intros e w'. eexists. eexists. reflexivity.
Qed.

(** X20.  [/ai-insights] of [app_old.py] never renders its page: it runs
    [get_ai_insights] to the end, with whatever that prints and submits to
    the service, and then raises [NameError] at [get_db_connection], for
    every visitor, configuration and store. *)
Theorem app_old_ai_insights_raises (model : option Service)
  (current_user : option Z) (w : World models.Tables) :
  AppOldRest.ai_insights strftime_Ymd json_dumps model current_user w
  = (Raise (NameError "name 'get_db_connection' is not defined"),
     snd (AppOld.get_ai_insights strftime_Ymd json_dumps model current_user
            (with_line w "🤖 Generating AI insights..."))).
Proof.
  unfold AppOldRest.ai_insights, bind at 1 2. unfold print at 1.
  destruct (app_old_get_ai_insights_returns model current_user
              (with_line w "🤖 Generating AI insights..."))
    as [text [w' E]].
  rewrite E. reflexivity.
Qed.

Lemma app_old_get_ai_insights_submits (svc : Service) (uid : Z)
  (w : World models.Tables) :
  (forall a, fault w a = None) ->
  3 <= len (AppOld.sessions_of uid (tables w)) ->
  exists sent,
    service_log
      (snd (AppOld.get_ai_insights strftime_Ymd json_dumps (Some svc)
              (Some uid) w))
    = (service_log w ++ [sent])%list.
Proof.
  intros Hf Hlen.
  assert ((len (AppOld.recent_sessions_of 20 uid (tables w)) <? 3) = false)
    as Eb by (apply Z.ltb_ge; rewrite len_recent_sessions_of; lia).
  assert ((0 <? Sql.COUNT (AppOld.sessions_of uid (tables w))) = true)
    as Ec by (apply Z.ltb_lt; unfold Sql.COUNT; unfold len in Hlen; lia).
  unfold AppOld.get_ai_insights, try_except, bind, AppOld.run,
    AppOld.current_user_id, db_guard, ret.
  rewrite !Hf, Ec, !Hf, Eb.
  unfold generate_content, print.
  match goal with
  | |- context [svc ?log ?p] => exists p; destruct (svc log p)
  end; reflexivity.
Qed.

(** X21.  In [app_old.py] a logged-in user with at least 3 sessions pays
    for a narrative that is never shown: with a configured service and a
    healthy store, [/ai-insights] submits one prompt to the service and
    then raises. *)
Theorem app_old_ai_insights_submits (svc : Service) (uid : Z)
  (w : World models.Tables) :
  (forall a, fault w a = None) ->
  3 <= len (AppOld.sessions_of uid (tables w)) ->
  exists sent,
    service_log
      (snd (AppOldRest.ai_insights strftime_Ymd json_dumps (Some svc)
              (Some uid) w))
    = (service_log w ++ [sent])%list /\
    fst (AppOldRest.ai_insights strftime_Ymd json_dumps (Some svc)
           (Some uid) w)
    = Raise (NameError "name 'get_db_connection' is not defined").
Proof.
  intros Hf Hlen.
  destruct (app_old_get_ai_insights_returns (Some svc) (Some uid)
              (with_line w "🤖 Generating AI insights..."))
    as [text [w' E]].
  destruct (app_old_get_ai_insights_submits svc uid
              (with_line w "🤖 Generating AI insights...") Hf Hlen)
    as [sent Hs].
  exists sent.
  assert (AppOldRest.ai_insights strftime_Ymd json_dumps (Some svc)
            (Some uid) w
          = (Raise (NameError "name 'get_db_connection' is not defined"), w'))
    as Er.
  { unfold AppOldRest.ai_insights, bind at 1 2. unfold print at 1.
    rewrite E. reflexivity. }
  rewrite Er, E in *. split; [exact Hs | reflexivity].
Qed.

(** X22.  The handlers of [app_old.py] that use the raw connection never
    succeed and never change anything: [/patterns] and
    [/delete-study-session] raise [NameError] at once, and a POST to
    [/log-study] raises either while the form is read or at
    [get_db_connection]; no session is ever logged or deleted. *)
Theorem app_old_raw_handlers_raise (w : World Database) :
  AppOld.patterns sqlite_DATE w
  = (Raise (NameError "name 'get_db_connection' is not defined"), w) /\
  (forall session_id,
     AppOldRest.delete_study_session session_id w
     = (Raise (NameError "name 'get_db_connection' is not defined"), w)) /\
  (forall form rowid now,
     match AppOldRest.log_study py_int more_fault "POST" form rowid now w with
     | (Returned _, _) => False
     | (Aborted e, w') => study_form py_int rowid now form = Rejected e /\ w' = w
     | (Failed e, w') =>
       e = NameError "name 'get_db_connection' is not defined" /\ w' = w
     end).
Proof.
  split; [reflexivity|]. split; [reflexivity|].
  intros form rowid now. unfold AppOldRest.log_study. simpl String.eqb.
  destruct (study_form py_int rowid now form) as [row|e]; now split.
Qed.

End OldHandlers.

(** X21, witness: user 1 has three sessions. *)
Lemma app_old_ai_insights_submits_witness :
  (forall a, fault (Sample.world_of Sample.shared_tables) a = None) /\
  3 <= len (AppOld.sessions_of 1
              (tables (Sample.world_of Sample.shared_tables))) /\
  exists sent,
    service_log
      (snd (AppOldRest.ai_insights Sample.strftime_Ymd opaque_dumps
              (Some Sample.narrator) (Some 1)
              (Sample.world_of Sample.shared_tables)))
    = [sent].
Proof.
  assert (forall a, fault (Sample.world_of Sample.shared_tables) a = None)
    as Hf by (intros a; reflexivity).
  assert (3 <= len (AppOld.sessions_of 1
                      (tables (Sample.world_of Sample.shared_tables))))
    as Hlen by discriminate.
  split; [exact Hf|]. split; [exact Hlen|].
  destruct (app_old_ai_insights_submits Sample.strftime_Ymd opaque_dumps
              Sample.narrator 1 (Sample.world_of Sample.shared_tables)
              Hf Hlen) as [sent [Hs _]].
  exists sent. exact Hs.
Defined.

(** ** [PerformanceRecord] *)





(** X24.  [repr] of a performance record evaluates [percentage]: for a
    record whose [max_score] is zero it raises [ZeroDivisionError] instead
    of describing the record, and for every other record it is the text
    with the subject and the percentage. *)
Theorem performance_repr_raises (float_str : Q -> string)
  (self : models.PerformanceRecord.t) :
  ((models.PerformanceRecord.max_score self == 0)%Q <->
   performance_repr float_str self
   = Raise (ZeroDivisionError "float division by zero")) /\
  (~ (models.PerformanceRecord.max_score self == 0)%Q ->
   performance_repr float_str self
   = Ok ("<PerformanceRecord " ++ models.PerformanceRecord.subject self
           ++ " - "
           ++ float_str
                (round1 (models.PerformanceRecord.score self
                         / models.PerformanceRecord.max_score self * 100))
           ++ "%>")).
Proof.
  unfold performance_repr, models.PerformanceRecord.percentage, truediv.
  destruct (Qeq_bool (models.PerformanceRecord.max_score self) 0) eqn:E;
    simpl.
  - apply Qeq_bool_iff in E. split; [now split | contradiction].
  - split; [|reflexivity]. split; [|discriminate].
    intros H. apply Qeq_bool_iff in H. congruence.
Qed.
